(** * Session lifecycle of the workspaces API (app/app.py)

    A shallow embedding of the request handlers and of the expiry sweeper of
    [app/app.py]: the SQLite table [sessions] is a list of rows, the Docker
    client is an interface whose calls are logged, and every handler is a
    computation in a small state-and-exception monad over the pair
    (table, container runtime). *)

From Stdlib Require Import ZArith List String Ascii Bool Lia DecimalString.
From Stdlib Require Import Sorting.Sorted Sorting.Permutation.
Import ListNotations.

Local Open Scope string_scope.
Local Open Scope Z_scope.

(** ** Python values and library functions used by the handlers *)

Module Py.

(** The exception classes the handlers can meet. *)
Inductive exn : Type :=
| ValueError
| AttributeError
| TypeError
| OverflowError.

(** Outcome of evaluating a Python expression. *)
Inductive result (A : Type) : Type :=
| Ok (a : A)
| Raise (e : exn).
Arguments Ok {A} a.
Arguments Raise {A} e.

(** What [sqlite3] hands back for the column [created TIMESTAMP]: the column
    has numeric affinity, so a value that looks like an integer is returned
    as a Python [int] and any other text as a [str]. *)
Inductive value : Type :=
| PStr (s : string)
| PInt (z : Z).

(** Truth value of a string: [not s] holds exactly for the empty string. *)
Definition truthy (s : string) : bool :=
  match s with
  | EmptyString => false
  | String _ _ => true
  end.

(** [a or d] for an optional string [a]: [None] and [''] are both falsy. *)
Definition or_default (a : option string) (d : string) : string :=
  match a with
  | Some s => if truthy s then s else d
  | None => d
  end.

(** [s.replace(old, new)] for a one-character [old]. *)
Fixpoint replace_char (old : ascii) (new : string) (s : string) : string :=
  match s with
  | EmptyString => EmptyString
  | String c rest =>
      if Ascii.eqb c old then new ++ replace_char old new rest
      else String c (replace_char old new rest)
  end.

(** White space of the ASCII range, as [int] skips it at both ends. *)
Definition is_space (c : ascii) : bool :=
  match nat_of_ascii c with
  | 9%nat | 10%nat | 11%nat | 12%nat | 13%nat | 32%nat => true
  | _ => false
  end.

Fixpoint lstrip (s : string) : string :=
  match s with
  | EmptyString => EmptyString
  | String c rest => if is_space c then lstrip rest else s
  end.

Fixpoint rev_string (acc s : string) : string :=
  match s with
  | EmptyString => acc
  | String c rest => rev_string (String c acc) rest
  end.

Definition strip (s : string) : string :=
  rev_string EmptyString (lstrip (rev_string EmptyString (lstrip s))).

Definition digit_val (c : ascii) : option Z :=
  let n := nat_of_ascii c in
  if andb (48 <=? n)%nat (n <=? 57)%nat then Some (Z.of_nat (n - 48)) else None.

(** A string stands for a Python text through its UTF-8 encoding.  The
    code points of the text; [None] when the bytes are not UTF-8. *)
Definition byte (c : ascii) : Z := Z.of_nat (nat_of_ascii c).

Definition continuation (c : ascii) : option Z :=
  let n := byte c in
  if (128 <=? n) && (n <? 192) then Some (n - 128) else None.

Fixpoint code_points (s : string) : option (list Z) :=
  match s with
  | EmptyString => Some []
  | String b0 rest =>
      let n0 := byte b0 in
      if n0 <? 128 then option_map (cons n0) (code_points rest)
      else if n0 <? 192 then None
      else if n0 <? 224 then
        match rest with
        | String b1 rest1 =>
            match continuation b1 with
            | Some c1 =>
                option_map (cons ((n0 - 192) * 64 + c1)) (code_points rest1)
            | None => None
            end
        | EmptyString => None
        end
      else if n0 <? 240 then
        match rest with
        | String b1 (String b2 rest2) =>
            match continuation b1, continuation b2 with
            | Some c1, Some c2 =>
                option_map (cons (((n0 - 224) * 64 + c1) * 64 + c2))
                           (code_points rest2)
            | _, _ => None
            end
        | _ => None
        end
      else
        match rest with
        | String b1 (String b2 (String b3 rest3)) =>
            match continuation b1, continuation b2, continuation b3 with
            | Some c1, Some c2, Some c3 =>
                option_map (cons ((((n0 - 240) * 64 + c1) * 64 + c2) * 64 + c3))
                           (code_points rest3)
            | _, _, _ => None
            end
        | _ => None
        end
  end.

(** The white space outside ASCII ([str.isspace], Unicode 14). *)
Definition unicode_spaces : list Z :=
  [133; 160; 5760; 8192; 8193; 8194; 8195; 8196; 8197; 8198; 8199; 8200;
   8201; 8202; 8232; 8233; 8239; 8287; 12288].

(** The digit zero of every decimal script outside ASCII (Unicode 14); the
    digits one to nine follow it. *)
Definition decimal_zeros : list Z :=
  [1632; 1776; 1984; 2406; 2534; 2662; 2790; 2918; 3046; 3174; 3302; 3430;
   3558; 3664; 3792; 3872; 4160; 4240; 6112; 6160; 6470; 6608; 6784; 6800;
   6992; 7088; 7232; 7248; 42528; 43216; 43264; 43472; 43504; 43600; 44016;
   65296; 66720; 68912; 69734; 69872; 69942; 70096; 70384; 70736; 70864;
   71248; 71360; 71472; 71904; 72016; 72784; 73040; 73120; 92768; 92864;
   93008; 120782; 120792; 120802; 120812; 120822; 123200; 123632; 125264;
   130032].

Definition decimal_value (cp : Z) : option Z :=
  match find (fun zero => (zero <=? cp) && (cp <? zero + 10)) decimal_zeros with
  | Some zero => Some (cp - zero)
  | None => None
  end.

(** What [int] makes of one character before it parses: an ASCII character
    stays, any other white space becomes a blank, any other decimal digit
    its ASCII digit, and everything else a character that is no digit. *)
Definition to_ascii (cp : Z) : ascii :=
  if cp <? 127 then ascii_of_nat (Z.to_nat cp)
  else if existsb (Z.eqb cp) unicode_spaces then " "%char
  else match decimal_value cp with
       | Some d => ascii_of_nat (Z.to_nat (48 + d))
       | None => "?"%char
       end.

(** Decimal digits with single underscores between digits, as [int] reads
    them: [after_digit] tells whether the previous character was a digit. *)
Fixpoint digits (acc : Z) (after_digit : bool) (s : string) : option Z :=
  match s with
  | EmptyString => if after_digit then Some acc else None
  | String c rest =>
      if Ascii.eqb c "_"%char then
        if after_digit then digits acc false rest else None
      else
        match digit_val c with
        | Some d => digits (10 * acc + d) true rest
        | None => None
        end
  end.

(** The number of digits of a text. *)
Fixpoint count_digits (s : string) : nat :=
  match s with
  | EmptyString => O
  | String c rest =>
      match digit_val c with
      | Some _ => S (count_digits rest)
      | None => count_digits rest
      end
  end.

(** [sys.get_int_max_str_digits()] of CPython 3.11: a longer number is
    refused. *)
Definition max_str_digits : nat := 4300.

(** [int(s)] for a text in base ten: surrounding white space, an optional
    sign, then digits.  [None] stands for [ValueError]. *)
Definition int_of_str (s : string) : option Z :=
  match code_points s with
  | None => None
  | Some cps =>
      let text := string_of_list_ascii (map to_ascii cps) in
      let body := strip text in
      if Nat.ltb max_str_digits (count_digits body) then None
      else
        match body with
        | String "-"%char rest => option_map Z.opp (digits 0 false rest)
        | String "+"%char rest => digits 0 false rest
        | _ => digits 0 false body
        end
  end.

(** [int(v)] for a value read from the table. *)
Definition int (v : value) : result Z :=
  match v with
  | PInt z => Ok z
  | PStr s =>
      match int_of_str s with
      | Some z => Ok z
      | None => Raise ValueError
      end
  end.

(** [str(n)] for an integer, as an f-string prints it. *)
Definition str_of_int (z : Z) : string := NilZero.string_of_int (Z.to_int z).

End Py.
Import Py.

(** ** Dates and times

    A [datetime] is the reading of a wall clock in microseconds since
    1970-01-01T00:00:00 on that clock, together with the offset of the clock
    from UTC in seconds when the value is timezone-aware.  The calendar is
    taken unbounded, and the local zone of the server has one fixed offset. *)

Module DateTime.

Record datetime : Type := {
  wall_us : Z;
  utcoffset : option Z
}.

(** A [timedelta], in microseconds. *)
Definition timedelta : Type := Z.

Definition us_per_s : Z := 1000000.

(** [timedelta(seconds=n)] *)
Definition seconds (n : Z) : timedelta := n * us_per_s.

(** [int(dt.timestamp())]: a naive value is read in the local zone; [int]
    truncates the float toward zero.  [timestamp()] is a float with
    microseconds: the quotient below is its integer part for times less
    than [2^34] seconds from the epoch (the year 2514); beyond, the float can
    round up to the next second. *)
Definition int_timestamp (local_offset : Z) (dt : datetime) : Z :=
  let off := match utcoffset dt with Some o => o | None => local_offset end in
  Z.quot (wall_us dt - seconds off) us_per_s.

(** [datetime.fromtimestamp(n)]: the naive local time of epoch second [n].
    Python raises outside the years 1 to 9999, which this total function
    does not show: [plain_time] below names a range where it returns. *)
Definition fromtimestamp (local_offset : Z) (n : Z) : datetime :=
  {| wall_us := seconds (n + local_offset); utcoffset := None |}.

(** [a - b]: defined between two naive or two aware values; mixing them
    raises [TypeError]. *)
Definition sub (a b : datetime) : result timedelta :=
  match utcoffset a, utcoffset b with
  | None, None => Ok (wall_us a - wall_us b)
  | Some oa, Some ob => Ok ((wall_us a - seconds oa) - (wall_us b - seconds ob))
  | _, _ => Raise TypeError
  end.

(** [dt + delta]; Python raises [OverflowError] when the sum leaves the
    years 1 to 9999, which this total function does not show:
    [in_calendar] below names that range. *)
Definition add (dt : datetime) (delta : timedelta) : datetime :=
  {| wall_us := wall_us dt + delta; utcoffset := utcoffset dt |}.

(** [int(delta.total_seconds() // 3600)] and
    [int((delta.total_seconds() % 3600) // 60)]: floor division, and a
    remainder that takes the sign of the divisor. *)
Definition hours_of (delta : timedelta) : Z := delta / seconds 3600.
Definition minutes_of (delta : timedelta) : Z := (delta mod seconds 3600) / seconds 60.

End DateTime.
Import DateTime.

(** ** JSON bodies and HTTP requests *)

#[warnings="-register-all"] Inductive json : Type :=
| JNull
| JBool (b : bool)
| JInt (z : Z)
| JStr (s : string)
| JArr (items : list json)
| JObj (fields : list (string * json)).

(** Truth value of a decoded JSON value in an [if]. *)
Definition json_truthy (j : json) : bool :=
  match j with
  | JNull => false
  | JBool b => b
  | JInt z => negb (Z.eqb z 0)
  | JStr s => truthy s
  | JArr items => match items with [] => false | _ => true end
  | JObj fields => match fields with [] => false | _ => true end
  end.

(** [d.get(key)] on a dictionary kept as an association list. *)
Fixpoint dict_get {A : Type} (key : string) (d : list (string * A)) : option A :=
  match d with
  | [] => None
  | (k, v) :: rest => if String.eqb k key then Some v else dict_get key rest
  end.

(** The parts of a Flask request the handlers read.  Header names are
    matched without regard to case, so the two spellings looked up by
    [get_user_id] read the same field. *)
Record request : Type := {
  method : string;
  authentik_username : option string;
  session_user_id : option string;
  args : list (string * string);
  json_body : list (string * json)
}.

(** A handler answers with a JSON body and a status code. *)
Definition response : Type := (json * Z)%type.

(** ** The table [sessions] *)

Record session : Type := {
  user_id : string;
  container_name : string;
  image : string;
  password : string;
  created : value;
  ttl : Z
}.

Definition store : Type := list session.

Module Sql.

(** [PRIMARY KEY(user_id, container_name)] *)
Definition same_key (u n : string) (r : session) : bool :=
  String.eqb (user_id r) u && String.eqb (container_name r) n.

Definition primary_key (st : store) : Prop :=
  NoDup (map (fun r => (user_id r, container_name r)) st).

(** [SELECT container_name, created, ttl FROM sessions WHERE ttl > 0] *)
Definition select_finite (st : store) : list (string * value * Z) :=
  map (fun r => (container_name r, created r, ttl r))
      (filter (fun r => Z.ltb 0 (ttl r)) st).

(** [SELECT container_name, image, password, created, ttl FROM sessions
     WHERE user_id=?], the rows taken in the order of the table; SQLite
    gives no order without [ORDER BY]. *)
Definition select_by_user (u : string) (st : store) : list session :=
  filter (fun r => String.eqb (user_id r) u) st.

(** [SELECT ... FROM sessions WHERE user_id=? AND container_name=?] followed
    by [fetchone()]. *)
Definition select_one (u n : string) (st : store) : option session :=
  find (same_key u n) st.

(** [DELETE FROM sessions WHERE container_name=?] *)
Definition delete_by_name (n : string) (st : store) : store :=
  filter (fun r => negb (String.eqb (container_name r) n)) st.

(** [DELETE FROM sessions WHERE user_id=? AND container_name=?] *)
Definition delete_by_key (u n : string) (st : store) : store :=
  filter (fun r => negb (same_key u n r)) st.

Definition set_ttl (t : Z) (r : session) : session :=
  {| user_id := user_id r; container_name := container_name r;
     image := image r; password := password r;
     created := created r; ttl := t |}.

(** [UPDATE sessions SET ttl=? WHERE user_id=? AND container_name=?]; a
    [None] bound to [user_id] is SQL [NULL], which equals no row. *)
Definition update_ttl (t : Z) (u : option string) (n : string) (st : store) : store :=
  match u with
  | None => st
  | Some u' => map (fun r => if same_key u' n r then set_ttl t r else r) st
  end.

(** A Python [int] bound to a statement becomes a 64-bit INTEGER; outside
    that range [execute] raises [OverflowError] and the statement is not
    run. *)
Definition bind_integer (z : Z) : result Z :=
  if (- 2 ^ 63 <=? z) && (z <? 2 ^ 63) then Ok z else Raise OverflowError.

(** [INSERT OR REPLACE INTO sessions VALUES (...)] *)
Definition insert_or_replace (r : session) (st : store) : store :=
  (delete_by_key (user_id r) (container_name r) st ++ [r])%list.

End Sql.

(** ** Collaborators: the date library, the Docker client, the process
    environment *)

(** [datetime.fromisoformat] ([None] stands for [ValueError]),
    [datetime.isoformat], and the offset of the server's local zone. *)
Class DateLib : Type := {
  fromisoformat : string -> option datetime;
  isoformat : datetime -> string;
  local_offset : Z
}.

(** The calls made on [client = docker.from_env()].  Each call moves the
    runtime to a new state; [Some msg] or [false] means that the call raised,
    [msg] being [str(e)]. *)
Class Docker (R : Type) : Type := {
  images_pull : R -> string -> R * option string;
  containers_run : R -> string -> string -> R * option string;
  exec_run : R -> string -> R * bool;
  containers_get : R -> string -> R * bool;
  container_stop : R -> string -> R * bool
}.

(** [os.getenv(name, default)] *)
Definition getenv (environ : list (string * string)) (name default : string) : string :=
  match dict_get name environ with
  | Some v => v
  | None => default
  end.

(** Values drawn by [generate_secure_password()] and [uuid.uuid4().hex]. *)
Record entropy : Type := {
  secure_password : string;
  uuid4_hex : string
}.

(** ** Effects

    Every statement sent to the table and every call on the Docker client is
    appended to a log, so that what a handler did, and in which order, can be
    stated. *)

Inductive event : Type :=
| SqlSelect
| SqlInsert
| SqlUpdate
| SqlDelete
| ImagesPull (img : string)
| ContainersRun (img name : string)
| ExecRun (name : string)
| ContainersGet (name : string)
| ContainerStop (name : string).

Record world (R : Type) : Type := {
  table : store;
  runtime : R;
  log : list event
}.
Arguments table {R} w.
Arguments runtime {R} w.
Arguments log {R} w.

(** A computation reads and updates the world and either returns a value or
    leaves with an uncaught exception. *)
Definition M (R A : Type) : Type := world R -> result A * world R.

Definition ret {R A : Type} (a : A) : M R A := fun w => (Ok a, w).

Definition bind {R A B : Type} (c : M R A) (k : A -> M R B) : M R B :=
  fun w =>
    match c w with
    | (Ok a, w') => k a w'
    | (Raise e, w') => (Raise e, w')
    end.

(** A pure expression that may raise. *)
Definition lift {R A : Type} (r : result A) : M R A := fun w => (r, w).

Notation "x <- c ;; k" := (bind c (fun x => k))
  (at level 61, c at next level, right associativity).
Notation "c ;;; k" := (bind c (fun _ => k))
  (at level 61, right associativity).

(** A [SELECT]: reads the table. *)
Definition query {R A : Type} (q : store -> A) : M R A :=
  fun w =>
    (Ok (q (table w)),
     {| table := table w; runtime := runtime w; log := (log w ++ [SqlSelect])%list |}).

(** An [INSERT], [UPDATE] or [DELETE] followed by [commit()]. *)
Definition execute {R : Type} (ev : event) (f : store -> store) : M R unit :=
  fun w =>
    (Ok tt,
     {| table := f (table w); runtime := runtime w; log := (log w ++ [ev])%list |}).

(** A call on the Docker client. *)
Definition docker {R A : Type} (ev : event) (call : R -> R * A) : M R A :=
  fun w =>
    let (rt, a) := call (runtime w) in
    (Ok a, {| table := table w; runtime := rt; log := (log w ++ [ev])%list |}).

(** ** The handlers of [app.py] *)

Section Handlers.

Context {lib : DateLib} {R : Type} {client : Docker R}.
Variable environ : list (string * string).

(** [get_user_id()] *)
Definition get_user_id (req : request) : string :=
  or_default (authentik_username req)
    (or_default (authentik_username req)
       (or_default (session_user_id req) "anonymous")).

(** [not user_id or user_id == 'anonymous'] *)
Definition unidentified (uid : string) : bool :=
  negb (truthy uid) || String.eqb uid "anonymous".

Definition unauthorized : response := (JObj [("error", JStr "Unauthorized")], 401).

(** The timestamp parsing of [cleanup_old_containers] and [extend_session]:
    [[
        try:
            created_dt = datetime.fromisoformat(created_str.replace('Z', '+00:00'))
            created_ts = int(created_dt.timestamp())
        except ValueError:
            created_ts = int(created_str)
    ]]
    An [int] has no method [replace]: the [AttributeError] is not a
    [ValueError] and leaves the handler. *)
Definition created_ts (created_str : value) : result Z :=
  match created_str with
  | PInt _ => Raise AttributeError
  | PStr s =>
      match fromisoformat (replace_char "Z"%char "+00:00" s) with
      | Some created_dt => Ok (int_timestamp local_offset created_dt)
      | None => Py.int created_str
      end
  end.

(** The timestamp parsing of [format_uptime] and [api_list]:
    [[
        try:
            created = datetime.fromisoformat(created_str)
        except:
            created = datetime.fromtimestamp(int(created_str))
    ]]
    The bare [except] also catches the [TypeError] raised for an [int]. *)
Definition created_dt (created_str : value) : result datetime :=
  let parsed :=
    match created_str with
    | PStr s => fromisoformat s
    | PInt _ => None
    end in
  match parsed with
  | Some created => Ok created
  | None =>
      match Py.int created_str with
      | Ok n => Ok (fromtimestamp local_offset n)
      | Raise e => Raise e
      end
  end.

(** *** [cleanup_old_containers] *)

(** The first loop: collect the names of the rows past their expiry. *)
Fixpoint expired_names (now_ts : Z) (rows : list (string * value * Z))
  : result (list string) :=
  match rows with
  | [] => Ok []
  | (name, created_str, ttl_s) :: rest =>
      match created_ts created_str with
      | Raise e => Raise e
      | Ok ts =>
          match expired_names now_ts rest with
          | Raise e => Raise e
          | Ok names =>
              let expires_at_ts := ts + ttl_s in
              if Z.leb expires_at_ts now_ts then Ok (name :: names) else Ok names
          end
      end
  end.

(** [try: container = client.containers.get(name); container.stop()
     except Exception: pass] *)
Definition try_stop (name : string) : M R unit :=
  found <- docker (ContainersGet name) (fun rt => containers_get rt name) ;;
  if found : bool
  then docker (ContainerStop name) (fun rt => container_stop rt name) ;;; ret tt
  else ret tt.

(** The second loop: stop, then delete by container name. *)
Fixpoint stop_and_delete (names : list string) : M R unit :=
  match names with
  | [] => ret tt
  | name :: rest =>
      try_stop name ;;;
      execute SqlDelete (Sql.delete_by_name name) ;;;
      stop_and_delete rest
  end.

Definition cleanup_old_containers (now_ts : Z) : M R unit :=
  rows <- query Sql.select_finite ;;
  names <- lift (expired_names now_ts rows) ;;
  stop_and_delete names.

(** *** [api_start] *)

(** [f"{gitea_registry}/{image}:latest"] *)
Definition full_image_of (image_name : string) : string :=
  getenv environ "GITEA_REGISTRY" "gitea.domain.local:3002"
  ++ "/" ++ image_name ++ ":latest".

(** [f"workspaces-{user_id}-{image.replace('/', '-')}-{uuid.uuid4().hex[:8]}"] *)
Definition fresh_name (uid image_name : string) (rnd : entropy) : string :=
  "workspaces-" ++ uid ++ "-" ++ replace_char "/"%char "-" image_name ++ "-"
  ++ substring 0 8 (uuid4_hex rnd).

(** [int(raw_ttl) if raw_ttl is not None else 0] *)
Definition requested_ttl (req : request) : result Z :=
  match dict_get "ttl" (args req) with
  | Some raw_ttl => Py.int (PStr raw_ttl)
  | None => Ok 0%Z
  end.

Definition api_start (image_name : string) (req : request)
    (now : datetime) (rnd : entropy) : M R response :=
  let uid := get_user_id req in
  if unidentified uid then ret unauthorized
  else
    let domain := getenv environ "DOMAIN" "workspaces.domain.local" in
    let full_image := full_image_of image_name in
    ttl_req <- lift (requested_ttl req) ;;
    let pw := secure_password rnd in
    let name := fresh_name uid image_name rnd in
    pulled <- docker (ImagesPull full_image) (fun rt => images_pull rt full_image) ;;
    match pulled with
    | Some e =>
        ret (JObj [("error", JStr ("Failed to pull " ++ full_image ++ ": " ++ e))], 500%Z)
    | None =>
        started <- docker (ContainersRun full_image name)
                     (fun rt => containers_run rt full_image name) ;;
        match started with
        | Some e =>
            ret (JObj [("error", JStr ("Failed to start container: " ++ e))], 500%Z)
        | None =>
            docker (ExecRun name) (fun rt => exec_run rt name) ;;;
            lift (Sql.bind_integer ttl_req) ;;;
            execute SqlInsert
              (Sql.insert_or_replace
                 {| user_id := uid; container_name := name; image := full_image;
                    password := pw; created := PStr (isoformat now);
                    ttl := ttl_req |}) ;;;
            ret (JObj [("url", JStr ("https://" ++ name ++ "." ++ domain));
                       ("username", JStr "workspaces-user");
                       ("password", JStr pw);
                       ("ttl", JInt ttl_req);
                       ("name", JStr name)], 200%Z)
        end
    end.

(** *** [api_list] *)

(** [f"{hours}h {minutes}m"] *)
Definition hm (hours minutes : Z) : string :=
  str_of_int hours ++ "h " ++ str_of_int minutes ++ "m".

(** [format_uptime(created_str, now)] *)
Definition format_uptime (created_str : value) (now : datetime) : result string :=
  match created_dt created_str with
  | Raise e => Raise e
  | Ok created_at =>
      match DateTime.sub now created_at with
      | Raise e => Raise e
      | Ok uptime => Ok (hm (hours_of uptime) (minutes_of uptime))
      end
  end.

(** The body of the loop over the rows of the caller. *)
Definition list_entry (domain : string) (now : datetime) (row : session)
  : result json :=
  if Z.eqb (ttl row) 0 then
    match format_uptime (created row) now with
    | Raise e => Raise e
    | Ok uptime =>
        Ok (JObj [("name", JStr (container_name row));
                  ("image", JStr (image row));
                  ("password", JStr (password row));
                  ("time_left", JStr "∞ Infinite");
                  ("infinite", JBool true);
                  ("uptime", JStr uptime);
                  ("url", JStr ("https://" ++ container_name row ++ "." ++ domain));
                  ("expires_at", JStr "Never")])
    end
  else
    match created_dt (created row) with
    | Raise e => Raise e
    | Ok created_at =>
        match DateTime.sub now created_at with
        | Raise e => Raise e
        | Ok uptime =>
            let expires_at := DateTime.add created_at (seconds (ttl row)) in
            match DateTime.sub expires_at now with
            | Raise e => Raise e
            | Ok remaining =>
                let time_left := Z.max 0 remaining in
                let total_seconds := time_left / us_per_s in
                let hours := total_seconds / 3600 in
                let minutes := (total_seconds mod 3600) / 60 in
                Ok (JObj [("name", JStr (container_name row));
                          ("image", JStr (image row));
                          ("password", JStr (password row));
                          ("time_left", JStr (hm hours minutes));
                          ("infinite", JBool false);
                          ("uptime", JStr (hm (hours_of uptime) (minutes_of uptime)));
                          ("url", JStr ("https://" ++ container_name row ++ "." ++ domain));
                          ("expires_at", JStr (isoformat expires_at))])
            end
        end
    end.

Fixpoint list_entries (domain : string) (now : datetime) (rows : list session)
  : result (list json) :=
  match rows with
  | [] => Ok []
  | row :: rest =>
      match list_entry domain now row with
      | Raise e => Raise e
      | Ok entry =>
          match list_entries domain now rest with
          | Raise e => Raise e
          | Ok entries => Ok (entry :: entries)
          end
      end
  end.

Definition api_list (req : request) (now : datetime) : M R response :=
  let uid := get_user_id req in
  if unidentified uid then ret unauthorized
  else
    rows <- query (Sql.select_by_user uid) ;;
    let domain := getenv environ "DOMAIN" "workspaces.domain.local" in
    containers <- lift (list_entries domain now rows) ;;
    ret (JObj [("containers", JArr containers)], 200%Z).

(** *** [api_stop] *)

Definition api_stop (name : string) (req : request) : M R response :=
  let uid := get_user_id req in
  if unidentified uid then ret unauthorized
  else
    row <- query (Sql.select_one uid name) ;;
    match row with
    | None =>
        ret (JObj [("error", JStr "Container not found or unauthorized")], 404%Z)
    | Some _ =>
        try_stop name ;;;
        execute SqlDelete (Sql.delete_by_key uid name) ;;;
        ret (JObj [("success", JBool true)], 200%Z)
    end.

(** *** [toggle_autokill] *)

(** [request.json.get('infinite', True)] *)
Definition is_infinite (req : request) : json :=
  match dict_get "infinite" (json_body req) with
  | Some flag => flag
  | None => JBool true
  end.

Definition toggle_autokill (name : string) (req : request) : M R response :=
  let uid := session_user_id req in
  if json_truthy (is_infinite req) then
    execute SqlUpdate (Sql.update_ttl 0 uid name) ;;;
    ret (JObj [("success", JBool true); ("status", JStr "infinite")], 200%Z)
  else
    execute SqlUpdate (Sql.update_ttl 7200 uid name) ;;;
    ret (JObj [("success", JBool true); ("status", JStr "finite")], 200%Z).

(** *** [extend_session] *)

(** [int(request.args.get('ttl', 7200))] *)
Definition added_seconds (req : request) : result Z :=
  Py.int (match dict_get "ttl" (args req) with
          | Some raw => PStr raw
          | None => PInt 7200
          end).

Definition extend_session (name : string) (req : request) (now_ts : Z)
  : M R response :=
  if String.eqb (method req) "OPTIONS" then ret (JStr "", 204%Z)
  else
    added <- lift (added_seconds req) ;;
    let uid := get_user_id req in
    row <- query (Sql.select_one uid name) ;;
    match row with
    | None => ret (JObj [("error", JStr "Container not found")], 404%Z)
    | Some r =>
        let current_ttl := ttl r in
        if Z.eqb current_ttl 0 then
          ret (JObj [("success", JBool true);
                     ("status", JStr "infinite");
                     ("message", JStr "Container is already infinite")], 200%Z)
        else
          old_created <- lift (created_ts (created r)) ;;
          let time_elapsed := now_ts - old_created in
          let time_left := Z.max 0 (current_ttl - time_elapsed) in
          let new_ttl := time_left + added in
          lift (Sql.bind_integer new_ttl) ;;;
          execute SqlUpdate (Sql.update_ttl new_ttl (Some uid) name) ;;;
          ret (JObj [("success", JBool true);
                     ("old_remaining", JInt time_left);
                     ("added", JInt added);
                     ("new_ttl", JInt new_ttl)], 200%Z)
    end.

(** *** The control surface *)

(** One request to a route of the application, or one pass of the sweeper,
    with the clock reading and the random values it consumes. *)
Inductive operation : Type :=
| Start (image_name : string) (req : request) (now : datetime) (rnd : entropy)
| ListSessions (req : request) (now : datetime)
| Stop (name : string) (req : request)
| Toggle (name : string) (req : request)
| Extend (name : string) (req : request) (now_ts : Z)
| Sweep (now_ts : Z).

(** What the caller gets back: the response of a handler, or nothing from the
    sweeper. *)
Definition run (op : operation) : M R (option response) :=
  match op with
  | Start image_name req now rnd =>
      resp <- api_start image_name req now rnd ;; ret (Some resp)
  | ListSessions req now => resp <- api_list req now ;; ret (Some resp)
  | Stop name req => resp <- api_stop name req ;; ret (Some resp)
  | Toggle name req => resp <- toggle_autokill name req ;; ret (Some resp)
  | Extend name req now_ts => resp <- extend_session name req now_ts ;; ret (Some resp)
  | Sweep now_ts => cleanup_old_containers now_ts ;;; ret None
  end.

End Handlers.

(** ** The other routes and helpers *)

(** *** [generate_secure_password] *)

(** [string.ascii_letters], [string.digits] *)
Definition ascii_letters : string :=
  "abcdefghijklmnopqrstuvwxyzABCDEFGHIJKLMNOPQRSTUVWXYZ".
Definition digit_chars : string := "0123456789".

(** [chars = string.ascii_letters + string.digits + "!@#$%^&*"] *)
Definition password_chars : string := ascii_letters ++ digit_chars ++ "!@#$%^&*".

(** [secrets.choice(seq)] is [seq[randbelow(len(seq))]]: [raw] is the random
    number from which [randbelow] derives an index below the length. *)
Definition choice (seq : string) (raw : nat) : ascii :=
  match String.get (raw mod String.length seq) seq with
  | Some c => c
  | None => zero
  end.

(** [''.join(secrets.choice(chars) for _ in range(length))]; [raws i] is the
    random number of the [i]-th draw. *)
Definition generate_secure_password (length : nat) (raws : nat -> nat) : string :=
  string_of_list_ascii
    (map (fun i => choice password_chars (raws i)) (seq 0 length)).

(** *** [get_images] *)

(** One dictionary of the list returned by [/images]. *)
Record catalog_entry : Type := {
  entry_name : string;
  entry_image : string;
  entry_tag : string
}.

(** [{'name': display_name, 'image': display_name, 'tag': tag}], where
    [tag] is ['latest'] on both sides of the conditional. *)
Definition image_entry (display_name : string) : catalog_entry :=
  {| entry_name := display_name; entry_image := display_name;
     entry_tag := "latest" |}.

(** The text after the last ['/'] of [s], when [s] has one. *)
Fixpoint after_last_slash (s : string) : option string :=
  match s with
  | EmptyString => None
  | String c rest =>
      match after_last_slash rest with
      | Some t => Some t
      | None => if Ascii.eqb c "/"%char then Some rest else None
      end
  end.

(** [name.split('/')[-1]] *)
Definition last_segment (s : string) : string :=
  match after_last_slash s with
  | Some t => t
  | None => s
  end.

(** The loop over [packages], [seen] being [seen_images].  A package that is
    not a dictionary has no [get] and a name that is not a string has no
    [startswith]: the exception ([None] here) leaves the [try] block. *)
Fixpoint collect_images (seen : list string) (packages : list json)
  : option (list catalog_entry) :=
  match packages with
  | [] => Some []
  | JObj fields :: rest =>
      match (match dict_get "name" fields with
             | Some v => v
             | None => JStr ""
             end) with
      | JStr name =>
          if negb (prefix "workspaces/" name) then collect_images seen rest
          else if existsb (String.eqb name) seen then collect_images seen rest
          else option_map (cons (image_entry (last_segment name)))
                          (collect_images (name :: seen) rest)
      | _ => None
      end
  | _ :: _ => None
  end.

(** Insertion of [x] before the first element whose key is not smaller. *)
Fixpoint insert_by {A : Type} (key : A -> string) (x : A) (l : list A) : list A :=
  match l with
  | [] => [x]
  | y :: rest =>
      if String.leb (key x) (key y) then x :: l else y :: insert_by key x rest
  end.

(** [sorted(l, key=key)]: a stable sort on string keys. *)
Definition sorted_by {A : Type} (key : A -> string) (l : list A) : list A :=
  fold_right (insert_by key) [] l.

(** The list sent when anything in the [try] block raised. *)
Definition builtin_images : list catalog_entry :=
  [image_entry "brave"; image_entry "edge"].

(** [get_images()]: [fetched] is the decoded body of the registry's answer,
    [None] when the request, the status check or the decoding raised.  A
    [for] loop over an empty dictionary or an empty string does nothing; any
    other value that is not a list raises in the loop. *)
Definition get_images (fetched : option json) : list catalog_entry :=
  let images :=
    match fetched with
    | Some (JArr packages) => collect_images [] packages
    | Some (JObj []) => Some []
    | Some (JStr EmptyString) => Some []
    | _ => None
    end in
  match images with
  | Some found => sorted_by entry_name found
  | None => builtin_images
  end.

(** *** [dashboard] and [logout] *)

(** What a page route answers: a redirect, or the arguments handed to the
    template together with the identity kept in the Flask session. *)
Inductive page : Type :=
| Redirect (url : string)
| Rendered (session_uid : string) (list_data : json)
           (images_data : list catalog_entry).

(** The request as the rest of the handler sees it after
    [session['user_id'] = user_id]. *)
Definition with_session (uid : option string) (req : request) : request :=
  {| method := method req; authentik_username := authentik_username req;
     session_user_id := uid; args := args req; json_body := json_body req |}.

Section Pages.

Context {lib : DateLib} {R : Type} {client : Docker R}.
Variable environ : list (string * string).

Definition dashboard (req : request) (now : datetime) (fetched : option json)
  : M R page :=
  let uid := get_user_id req in
  if unidentified uid then
    ret (Redirect
           "https://authentik.domain.local/if/auth/?next=https://workspaces.domain.local/")
  else
    listed <- api_list environ (with_session (Some uid) req) now ;;
    ret (Rendered uid (fst listed) (get_images fetched)).

(** [logout()]: [session.clear()], then the redirect; the second component
    is the identity left in the session. *)
Definition logout (req : request) : page * option string :=
  (Redirect
     "https://api.workspaces.domain.local/outpost.goauthentik.io/sign_out?rd=https://api.workspaces.domain.local/",
   None).

End Pages.

(** ** A runnable instance of the collaborators

    The handlers above are stated over any date library and any Docker
    client.  To run them on concrete tables, [Sample] provides a parser and
    printer for the form written by [datetime.now().isoformat()]
    ([YYYY-MM-DDTHH:MM:SS], optional [.ffffff], optional [+HH:MM]) on a server
    in UTC, and a container runtime that keeps the set of running names. *)

Module Sample.

Fixpoint number (acc : Z) (s : string) : option Z :=
  match s with
  | EmptyString => Some acc
  | String c rest =>
      match digit_val c with
      | Some d => number (10 * acc + d) rest
      | None => None
      end
  end.

(** The [len] digits that start at position [start]. *)
Definition field (start len : nat) (s : string) : option Z :=
  let f := substring start len s in
  if Nat.eqb (String.length f) len then number 0 f else None.

Definition char_is (pos : nat) (c : ascii) (s : string) : bool :=
  match String.get pos s with
  | Some c' => Ascii.eqb c c'
  | None => false
  end.

(** Days from 1970-01-01 to the given day of the proleptic Gregorian
    calendar. *)
Definition days_from_civil (y m d : Z) : Z :=
  let y' := if m <=? 2 then y - 1 else y in
  let era := y' / 400 in
  let yoe := y' - era * 400 in
  let mp := (m + 9) mod 12 in
  let doy := (153 * mp + 2) / 5 + d - 1 in
  let doe := yoe * 365 + yoe / 4 - yoe / 100 + doy in
  era * 146097 + doe - 719468.

Definition civil_from_days (z : Z) : Z * Z * Z :=
  let z' := z + 719468 in
  let era := z' / 146097 in
  let doe := z' - era * 146097 in
  let yoe := (doe - doe / 1460 + doe / 36524 - doe / 146096) / 365 in
  let doy := doe - (365 * yoe + yoe / 4 - yoe / 100) in
  let mp := (5 * doy + 2) / 153 in
  let d := doy - (153 * mp + 2) / 5 + 1 in
  let m := if mp <? 10 then mp + 3 else mp - 9 in
  let y := yoe + era * 400 + (if m <=? 2 then 1 else 0) in
  (y, m, d).

Definition in_range (lo hi v : Z) : bool := (lo <=? v) && (v <=? hi).

Definition parse_offset (s : string) : option (option Z) :=
  match s with
  | EmptyString => Some None
  | String sign body =>
      let signed (k : Z) :=
        match field 0 2 body, field 3 2 body with
        | Some hh, Some mm =>
            if char_is 2 ":"%char body && Nat.eqb (String.length body) 5
               && in_range 0 23 hh && in_range 0 59 mm
            then Some (Some (k * (hh * 3600 + mm * 60)))
            else None
        | _, _ => None
        end in
      if Ascii.eqb sign "+"%char then signed 1
      else if Ascii.eqb sign "-"%char then signed (-1)
      else None
  end.

Definition parse_iso (s : string) : option datetime :=
  match field 0 4 s, field 5 2 s, field 8 2 s,
        field 11 2 s, field 14 2 s, field 17 2 s with
  | Some y, Some m, Some d, Some hh, Some mi, Some ss =>
      if char_is 4 "-"%char s && char_is 7 "-"%char s
         && Nat.leb 11 (String.length s)
         && char_is 13 ":"%char s && char_is 16 ":"%char s
         && in_range 1 9999 y && in_range 1 12 m
         && (1 <=? d) && (d <=? days_from_civil (y + m / 12) (m mod 12 + 1) 1
                                 - days_from_civil y m 1)
         && in_range 0 23 hh && in_range 0 59 mi && in_range 0 59 ss
      then
        let base := ((days_from_civil y m d * 24 + hh) * 60 + mi) * 60 + ss in
        let tail := substring 19 (String.length s - 19) s in
        let frac_tail :=
          if char_is 0 "."%char tail
          then match field 1 6 tail with
               | Some us => Some (us, substring 7 (String.length tail - 7) tail)
               | None => None
               end
          else Some (0, tail) in
        match frac_tail with
        | Some (us, zone) =>
            match parse_offset zone with
            | Some off => Some {| wall_us := seconds base + us; utcoffset := off |}
            | None => None
            end
        | None => None
        end
      else None
  | _, _, _, _, _, _ => None
  end.

(** [n] written with at least [width] digits. *)
Fixpoint pad (width : nat) (n : Z) : string :=
  match width with
  | O => EmptyString
  | S O => str_of_int n
  | S w => if n <? 10 ^ Z.of_nat w then "0" ++ pad w n else str_of_int n
  end.

Definition print_iso (dt : datetime) : string :=
  let secs := wall_us dt / us_per_s in
  let us := wall_us dt mod us_per_s in
  let '(y, m, d) := civil_from_days (secs / 86400) in
  let sod := secs mod 86400 in
  pad 4 y ++ "-" ++ pad 2 m ++ "-" ++ pad 2 d ++ "T"
  ++ pad 2 (sod / 3600) ++ ":" ++ pad 2 (sod mod 3600 / 60) ++ ":" ++ pad 2 (sod mod 60)
  ++ (if us =? 0 then "" else "." ++ pad 6 us)
  ++ match utcoffset dt with
     | None => ""
     | Some off =>
         (if off <? 0 then "-" else "+")
         ++ pad 2 (Z.abs off / 3600) ++ ":" ++ pad 2 (Z.abs off mod 3600 / 60)
     end.

#[export] Instance utc_dates : DateLib := {
  fromisoformat := parse_iso;
  isoformat := print_iso;
  local_offset := 0
}.

(** A runtime: the names of the running containers, the images that cannot
    be pulled, and the containers that refuse to stop. *)
Record runtime_state : Type := {
  running : list string;
  unavailable : list string;
  stuck : list string
}.

Definition mem (x : string) (l : list string) : bool := existsb (String.eqb x) l.

#[export] Instance toy_docker : Docker runtime_state := {
  images_pull rt img :=
    (rt, if mem img (unavailable rt) then Some "pull access denied" else None);
  containers_run rt img name :=
    if mem name (running rt) then (rt, Some "Conflict: name already in use")
    else ({| running := name :: running rt; unavailable := unavailable rt;
             stuck := stuck rt |}, None);
  exec_run rt name := (rt, mem name (running rt));
  containers_get rt name := (rt, mem name (running rt));
  container_stop rt name :=
    if mem name (stuck rt) then (rt, false)
    else ({| running := filter (fun n => negb (String.eqb n name)) (running rt);
             unavailable := unavailable rt; stuck := stuck rt |}, true)
}.

End Sample.
Import Sample.

(** ** Vocabulary of the statements *)

Section Vocabulary.

Context {lib : DateLib}.

(** A finite session is expired at [now_ts] when [created + ttl <= now_ts],
    [created] being read the way the sweeper reads it. *)
Definition is_expired (now_ts : Z) (r : session) : bool :=
  (0 <? ttl r)
  && match created_ts (created r) with
     | Ok ts => ts + ttl r <=? now_ts
     | Raise _ => false
     end.

(** The sweeper can read the creation time of every finite session. *)
Definition finite_rows_readable (st : store) : Prop :=
  forall r, In r st -> 0 < ttl r -> exists ts, created_ts (created r) = Ok ts.

End Vocabulary.

Section Stops.

Context {R : Type} {client : Docker R}.

(** One stop attempt on a container name, as the calls it makes on the
    Docker client: the container is looked up, and it is told to stop when
    the lookup has found it. *)
Definition stop_events (rt : R) (name : string) : list event :=
  if snd (containers_get rt name)
  then [ContainersGet name; ContainerStop name]
  else [ContainersGet name].

(** The runtime after one stop attempt. *)
Definition after_stop (rt : R) (name : string) : R :=
  if snd (containers_get rt name)
  then fst (container_stop (fst (containers_get rt name)) name)
  else fst (containers_get rt name).

(** One stop attempt and one [DELETE] for each name, in order. *)
Fixpoint sweep_events (rt : R) (names : list string) : list event :=
  match names with
  | [] => []
  | name :: rest =>
      (stop_events rt name
       ++ SqlDelete :: sweep_events (after_stop rt name) rest)%list
  end.

End Stops.

(** The lease length fits the 64-bit INTEGER of the table. *)
Definition fits_integer (z : Z) : Prop := - 2 ^ 63 <= z < 2 ^ 63.

(** A time between 1970-01-02 and 2514-05-30 on its own clock: every zone
    has it within the years of [datetime], and a number of seconds
    between two such times is exact to the microsecond as a float. *)
Definition plain_time (dt : datetime) : Prop :=
  seconds 86400 <= wall_us dt < seconds (2 ^ 34).

(** A time within the years 1 to 9999 of [datetime]. *)
Definition in_calendar (dt : datetime) : Prop :=
  seconds (-62135596800) <= wall_us dt < seconds 253402300800.

(** The image pull raises, or the pull succeeds and the container launch
    raises. *)
Definition launch_fails {R : Type} {client : Docker R}
    (rt : R) (full_image name : string) : Prop :=
  match images_pull rt full_image with
  | (_, Some _) => True
  | (rt1, None) =>
      match containers_run rt1 full_image name with
      | (_, Some _) => True
      | (_, None) => False
      end
  end.

(** An entry of the listing shows the name, the image and the credential of
    a row. *)
Definition describes (entry : json) (r : session) : Prop :=
  exists fields,
    entry = JObj fields
    /\ dict_get "name" fields = Some (JStr (container_name r))
    /\ dict_get "image" fields = Some (JStr (image r))
    /\ dict_get "password" fields = Some (JStr (password r)).

(** Every stored lease length is non-negative. *)
Definition ttl_nonneg (st : store) : Prop := Forall (fun r => 0 <= ttl r) st.

(** The [ttl] query argument of a request, when it is present and reads as
    an integer, is not negative. *)
Definition ttl_arg_nonneg (req : request) : Prop :=
  forall raw z,
    dict_get "ttl" (args req) = Some raw -> int_of_str raw = Some z -> 0 <= z.

(** The operation asks for no negative lease length: the requested lease of
    a provisioning and the seconds added by an extension are the [ttl]
    query argument. *)
Definition asks_nonneg (op : operation) : Prop :=
  match op with
  | Start _ req _ _ => ttl_arg_nonneg req
  | Extend _ req _ => ttl_arg_nonneg req
  | _ => True
  end.

(** ** Concrete tables and requests *)

Module Scenario.

Definition row (u n : string) (c : value) (t : Z) : session :=
  {| user_id := u; container_name := n;
     image := "gitea.domain.local:3002/brave:latest"; password := "s3cret";
     created := c; ttl := t |}.

(** A creation time as [api_start] writes it. *)
Definition at_epoch : value := PStr "1970-01-01T00:00:00".

(** A table and the names of the running containers, before any effect. *)
Definition world_of (st : store) (names : list string) : world runtime_state :=
  {| table := st;
     runtime := {| running := names; unavailable := []; stuck := [] |};
     log := [] |}.

(** A [GET] from the proxy, with the identity header it injects. *)
Definition get_as (u : option string) (query : list (string * string)) : request :=
  {| method := "GET"; authentik_username := u; session_user_id := None;
     args := query; json_body := [] |}.

(** A [POST] of the dashboard, identified by the Flask session only. *)
Definition post_as (u : option string) (infinite : bool) : request :=
  {| method := "POST"; authentik_username := None; session_user_id := u;
     args := []; json_body := [("infinite", JBool infinite)] |}.

Definition noon : datetime := {| wall_us := seconds 43200; utcoffset := None |}.

Definition dice : entropy :=
  {| secure_password := "aB3$aB3$aB3$aB3$aB3$aB3$";
     uuid4_hex := "0123abcd4567ef890123abcd4567ef89" |}.

(** Bob holds a one-hour lease and Amy an infinite session. *)
Definition two_owners : store :=
  [row "bob" "workspaces-bob-brave-0123abcd" at_epoch 3600;
   row "amy" "workspaces-amy-brave-89ef7654" at_epoch 0].

(** The same container name stored under two owners: user [a-b] with image
    [c] and user [a] with image [b-c] draw the same name when [uuid4] gives
    the same first eight digits. *)
Definition namesakes : store :=
  [row "a-b" "workspaces-a-b-c-0123abcd" at_epoch 0;
   row "a" "workspaces-a-b-c-0123abcd" at_epoch 10].

(** Two expired leases, one lease still running, one infinite session. *)
Definition mixed : store :=
  [row "bob" "workspaces-bob-brave-0123abcd" at_epoch 10;
   row "amy" "workspaces-amy-brave-89ef7654" at_epoch 0;
   row "carl" "workspaces-carl-edge-11112222" at_epoch 20;
   row "dora" "workspaces-dora-edge-33334444" at_epoch 1000].

(** A creation time kept as an integer epoch. *)
Definition integer_epoch : store :=
  [row "bob" "workspaces-bob-brave-0123abcd" (PInt 1700000000) 3600].

(** Bob's container refuses to stop and Carl's is already gone. *)
Definition stubborn : world runtime_state :=
  {| table := mixed;
     runtime := {| running := ["workspaces-bob-brave-0123abcd"];
                   unavailable := [];
                   stuck := ["workspaces-bob-brave-0123abcd"] |};
     log := [] |}.

(** The registry does not serve the image. *)
Definition registry_down : world runtime_state :=
  {| table := two_owners;
     runtime := {| running := [];
                   unavailable := ["gitea.domain.local:3002/brave:latest"];
                   stuck := [] |};
     log := [] |}.

(** The name that [dice] yields for Alice is taken by a running container. *)
Definition name_taken : world runtime_state :=
  world_of two_owners ["workspaces-alice-brave-0123abcd"].

End Scenario.

(** A character that can stand between single quotes in the argument of
    [echo -e]: neither a single quote (code 39), nor a backslash (code 92),
    nor white space. *)
Definition plain_in_quotes (c : ascii) : bool :=
  negb (Ascii.eqb c "039"%char) && negb (Ascii.eqb c "092"%char)
  && negb (is_space c).

(** [j.get(key)] on a decoded JSON object. *)
Definition json_field (key : string) (j : json) : option json :=
  match j with
  | JObj fields => dict_get key fields
  | _ => None
  end.

(** The name of a decoded package, when it is a string; a package without
    the key has the name ['']. *)
Definition package_name (pkg : json) : option string :=
  match pkg with
  | JObj fields =>
      match dict_get "name" fields with
      | Some (JStr name) => Some name
      | Some _ => None
      | None => Some EmptyString
      end
  | _ => None
  end.

(** The ways in which the handlers change rows that are already stored. *)
Inductive table_change (st : store) : store -> Prop :=
| Unchanged : table_change st st
| Deleted (keep : session -> bool) : table_change st (filter keep st)
| Retimed (t : Z) (u : option string) (n : string) :
    table_change st (Sql.update_ttl t u n st).

(** Two rows that differ at most in their lease length. *)
Definition same_identity (r r' : session) : Prop :=
  user_id r' = user_id r /\ container_name r' = container_name r
  /\ image r' = image r /\ password r' = password r /\ created r' = created r.

(** The package names that [get_images] keeps: those that start with
    ['workspaces/'], each at its first occurrence after [seen]. *)
Fixpoint first_seen (seen names : list string) : list string :=
  match names with
  | [] => []
  | n :: rest =>
      if negb (prefix "workspaces/" n) then first_seen seen rest
      else if existsb (String.eqb n) seen then first_seen seen rest
      else n :: first_seen (n :: seen) rest
  end.

(** The order in which [sorted] leaves two neighbours. *)
Definition by_name (a b : catalog_entry) : Prop :=
  String.leb (entry_name a) (entry_name b) = true.

Section MoreVocabulary.

Context {lib : DateLib}.

(** The sweeper can read the creation time of every session. *)
Definition all_rows_readable (st : store) : Prop :=
  forall r, In r st -> exists ts, created_ts (created r) = Ok ts.

(** The row that [api_start] inserts. *)
Definition provisioned (environ : list (string * string)) (image_name : string)
    (req : request) (now : datetime) (rnd : entropy) (t : Z) : session :=
  {| user_id := get_user_id req;
     container_name := fresh_name (get_user_id req) image_name rnd;
     image := full_image_of environ image_name;
     password := secure_password rnd;
     created := PStr (isoformat now); ttl := t |}.

End MoreVocabulary.

(** ** Further tables and registry answers *)

Module Cases.

Import Scenario.

(** Two versions of one package, a package outside [workspaces/], a second
    image, and a package without a name. *)
Definition registry_answer : list json :=
  [JObj [("name", JStr "workspaces/brave"); ("version", JStr "latest")];
   JObj [("name", JStr "workspaces/brave"); ("version", JStr "sha256:0a1b")];
   JObj [("name", JStr "tools/cli"); ("version", JStr "1.0")];
   JObj [("name", JStr "workspaces/apps/edge"); ("version", JStr "latest")];
   JObj [("version", JStr "latest")]].

Definition registry_names : list string :=
  ["workspaces/brave"; "workspaces/brave"; "tools/cli"; "workspaces/apps/edge"; ""].

(** An answer whose last package has a null name. *)
Definition broken_answer : list json :=
  [JObj [("name", JStr "workspaces/brave")]; JObj [("name", JNull)]].

(** Bob's session carries a creation time with a UTC offset. *)
Definition with_offset : store :=
  [row "bob" "workspaces-bob-brave-0123abcd" at_epoch 3600;
   row "bob" "workspaces-bob-edge-4567cdef"
       (PStr "1970-01-01T02:00:00+02:00") 3600].

Definition bob_running : world runtime_state :=
  world_of two_owners ["workspaces-bob-brave-0123abcd"].

(** A creation time on the second day of the epoch, and noon of that day. *)
Definition second_day : value := PStr "1970-01-02T00:00:00".

Definition second_noon : datetime :=
  {| wall_us := seconds 129600; utcoffset := None |}.

(** A toggle by Bob as the proxy identifies him: the identity header, and
    no identity in the Flask session. *)
Definition toggle_by_header : request :=
  {| method := "POST"; authentik_username := Some "bob";
     session_user_id := None; args := [];
     json_body := [("infinite", JBool true)] |}.

(** Two expired leases under one container name, and a container of that
    name that refuses to stop. *)
Definition twin_leases : world runtime_state :=
  {| table := [row "a-b" "workspaces-a-b-c-0123abcd" at_epoch 10;
               row "a" "workspaces-a-b-c-0123abcd" at_epoch 20];
     runtime := {| running := ["workspaces-a-b-c-0123abcd"];
                   unavailable := [];
                   stuck := ["workspaces-a-b-c-0123abcd"] |};
     log := [] |}.

End Cases.

(** ** Properties *)

Example int_of_str_samples :
  map int_of_str ["7200"; "-5"; " +1_000 "; "1__0"; "_1"; ""; "12h"]
  = [Some 7200; Some (-5); Some 1000; None; None; None; None].
Proof. reflexivity. Qed.

(** [int] reads the decimal digits and the blanks of Unicode, not only
    those of ASCII: [-٣] is [-3], a no-break space is stripped, and the
    information separator [\x1f] is not a blank. *)
Example int_of_str_unicode_samples :
  map int_of_str
    ["-٣"; "١٢"; String "194"%char (String "160"%char "7");
     String "031"%char "7"; "٣h"; "７２００"]
  = [Some (-3); Some 12; Some 7; None; None; Some 7200].
Proof. vm_compute. reflexivity. Qed.

Example str_of_int_samples :
  map str_of_int [0; 42; -7] = ["0"; "42"; "-7"].
Proof. reflexivity. Qed.

Example parse_iso_samples :
  map Sample.parse_iso
    ["1970-01-01T00:00:10"; "2023-11-14T22:13:20"; "2024-02-30T00:00:00";
     "2024-01-01T00:00:00+02:00"; "1700000000"]
  = [Some {| wall_us := 10000000; utcoffset := None |};
     Some {| wall_us := 1700000000000000; utcoffset := None |};
     None;
     Some {| wall_us := 1704067200000000; utcoffset := Some 7200 |};
     None].
Proof. reflexivity. Qed.

(** *** Facts about the statements sent to the table *)

Lemma same_key_true u n r :
  Sql.same_key u n r = true <-> user_id r = u /\ container_name r = n.
Proof.
  unfold Sql.same_key. rewrite andb_true_iff, !String.eqb_eq. tauto.
Qed.

Lemma same_key_set_ttl u n t r :
  Sql.same_key u n (Sql.set_ttl t r) = Sql.same_key u n r.
Proof. reflexivity. Qed.

Lemma select_one_update_same t u n st :
  Sql.select_one u n (Sql.update_ttl t (Some u) n st)
  = option_map (Sql.set_ttl t) (Sql.select_one u n st).
Proof.
  unfold Sql.select_one, Sql.update_ttl.
  induction st as [|r st IH]; cbn [map find]; [reflexivity|].
  destruct (Sql.same_key u n r) eqn:E.
  - now rewrite same_key_set_ttl, E.
  - now rewrite E.
Qed.



(** *** Extending a lease *)

Lemma bind_integer_fits z : fits_integer z -> Sql.bind_integer z = Ok z.
Proof.
  unfold fits_integer, Sql.bind_integer. intros [Hlo Hhi].
  apply Z.leb_le in Hlo. apply Z.ltb_lt in Hhi. now rewrite Hlo, Hhi.
Qed.



(** *** Toggling the automatic kill *)

(** With the identity of its owner in the Flask session, toggling a session
    with [infinite = true] stores [ttl = 0] and reports ["infinite"], and
    toggling with [infinite = false] stores [ttl = 7200] and reports
    ["finite"], whatever lease length the session held. *)
Lemma toggle_autokill_sets_mode :
  forall (R : Type) (client : Docker R)
         (name : string) (req : request) (w : world R) (r : session) (b : bool),
    session_user_id req = Some (user_id r) ->
    Sql.select_one (user_id r) name (table w) = Some r ->
    dict_get "infinite" (json_body req) = Some (JBool b) ->
    exists w',
      toggle_autokill name req w
      = (Ok (JObj [("success", JBool true);
                   ("status", JStr (if b then "infinite" else "finite"))], 200), w')
      /\ Sql.select_one (user_id r) name (table w')
         = Some {| user_id := user_id r; container_name := container_name r;
                   image := image r; password := password r;
                   created := created r; ttl := if b then 0 else 7200 |}.
Proof.
  intros R client name req w r b Huser Hrow Hflag.
  unfold toggle_autokill, is_infinite, bind, execute, ret.
  rewrite Hflag, Huser. cbn [json_truthy].
  destruct b; eexists; (split; [reflexivity | cbn [table]]);
    now rewrite select_one_update_same, Hrow.
Qed.

(** C7 (what the code does). A caller whom the identity header identifies,
    as in every other handler, but whose Flask session holds no identity,
    toggles a session of their own: [toggle_autokill] sends its [UPDATE],
    answers with success and the requested mode, and changes nothing: the
    [UPDATE] is bound to a null [user_id], and the session keeps the lease it
    had. *)
Theorem toggle_autokill_ignores_header :
  forall (R : Type) (client : Docker R)
         (name : string) (req : request) (w : world R) (r : session),
    unidentified (get_user_id req) = false ->
    session_user_id req = None ->
    Sql.select_one (get_user_id req) name (table w) = Some r ->
    toggle_autokill name req w
    = (Ok (JObj [("success", JBool true);
                 ("status", JStr (if json_truthy (is_infinite req)
                                  then "infinite" else "finite"))], 200),
       {| table := table w; runtime := runtime w;
          log := (log w ++ [SqlUpdate])%list |})
    /\ Sql.select_one (get_user_id req) name
         (table (snd (toggle_autokill name req w)))
       = Some r.
Proof.
  intros R client name req w r _ Hsession Hrow.
  unfold toggle_autokill, bind, execute, ret. rewrite Hsession.
  destruct (json_truthy (is_infinite req)); (split; [reflexivity | exact Hrow]).
Qed.


(** *** The expiry sweeper *)

Section Sweeper.

Context {lib : DateLib} {R : Type} {client : Docker R}.

Lemma finite_rows_readable_tail r st :
  finite_rows_readable (r :: st) -> finite_rows_readable st.
Proof. intros H r' Hin. apply H. now right. Qed.

(** The first loop returns the names of the expired sessions, one entry for
    each of them, in the order of the table. *)
Lemma expired_names_select now_ts st :
  finite_rows_readable st ->
  expired_names now_ts (Sql.select_finite st)
  = Ok (map container_name (filter (is_expired now_ts) st)).
Proof.
  unfold Sql.select_finite.
  induction st as [|r st IH]; intros Hread; [reflexivity|].
  specialize (IH (finite_rows_readable_tail _ _ Hread)).
  cbn [filter]. unfold is_expired at 1.
  destruct (0 <? ttl r) eqn:Hfin; cbn [andb map expired_names].
  - destruct (Hread r (or_introl eq_refl)) as [ts Hts]; [now apply Z.ltb_lt|].
    rewrite Hts, IH.
    destruct (ts + ttl r <=? now_ts); reflexivity.
  - exact IH.
Qed.

Lemma try_stop_run name (w : world R) :
  exists rt evs,
    try_stop name w
    = (Ok tt, {| table := table w; runtime := rt; log := (log w ++ evs)%list |})
    /\ rt = after_stop (runtime w) name
    /\ evs = stop_events (runtime w) name.
Proof.
  unfold try_stop, bind, docker, ret, after_stop, stop_events.
  cbn [runtime table log].
  destruct (containers_get (runtime w) name) as [rt found].
  destruct found; cbn [runtime table log fst snd].
  - destruct (container_stop rt name) as [rt' stopped].
    exists rt', [ContainersGet name; ContainerStop name].
    now rewrite <- app_assoc.
  - exists rt, [ContainersGet name]. now repeat split.
Qed.

(** The second loop never raises, whatever the runtime answers: it makes
    one stop attempt per name and deletes the rows of every name. *)
Lemma stop_and_delete_run names :
  forall w : world R,
  exists w' evs,
    stop_and_delete names w = (Ok tt, w')
    /\ table w' = fold_left (fun st n => Sql.delete_by_name n st) names (table w)
    /\ log w' = (log w ++ evs)%list
    /\ evs = sweep_events (runtime w) names.
Proof.
  induction names as [|name rest IH]; intros w.
  - exists w, []. cbn. now rewrite app_nil_r.
  - destruct (try_stop_run name w) as (rt & evs1 & Hstop & -> & ->).
    cbn [stop_and_delete]. unfold bind at 1. rewrite Hstop.
    unfold bind at 1, execute at 1. cbn [table runtime log].
    match goal with |- context [stop_and_delete rest ?w1] =>
      destruct (IH w1) as (w' & evs2 & Hrun & Htab & Hlog & ->)
    end.
    eexists w', _. rewrite Hrun. cbn [table runtime log fold_left] in *.
    split; [reflexivity|]. split; [exact Htab|]. split; [|reflexivity].
    rewrite Hlog, <- !app_assoc. reflexivity.
Qed.

Lemma in_delete_by_name r n st :
  In r (Sql.delete_by_name n st) <-> In r st /\ container_name r <> n.
Proof.
  unfold Sql.delete_by_name. rewrite filter_In, negb_true_iff.
  now rewrite String.eqb_neq.
Qed.

Lemma in_delete_all r names :
  forall st,
    In r (fold_left (fun st n => Sql.delete_by_name n st) names st)
    <-> In r st /\ ~ In (container_name r) names.
Proof.
  induction names as [|n rest IH]; intros st; cbn [fold_left In].
  - tauto.
  - rewrite IH, in_delete_by_name. intuition congruence.
Qed.

End Sweeper.

Lemma count_occ_names (n : string) (keep : session -> bool) (st : store) :
  count_occ string_dec (map container_name (filter keep st)) n
  = List.length (filter (fun r => keep r && String.eqb (container_name r) n) st).
Proof.
  induction st as [|r st IH]; cbn [filter map]; [reflexivity|].
  destruct (keep r); cbn [andb map count_occ]; [|exact IH].
  destruct (string_dec (container_name r) n) as [Heq | Hne].
  - apply String.eqb_eq in Heq. rewrite Heq. cbn [filter List.length].
    now rewrite IH.
  - apply String.eqb_neq in Hne. now rewrite Hne.
Qed.

Lemma sweep_events_block {R : Type} {client : Docker R} (n : string) names :
  In n names ->
  forall rt : R,
  exists before after rt',
    sweep_events rt names
    = (before ++ stop_events rt' n ++ SqlDelete :: after)%list.
Proof.
  induction names as [|x rest IH]; intros Hin rt; [contradiction|].
  cbn [sweep_events]. destruct Hin as [-> | Hin].
  - exists [], (sweep_events (after_stop rt n) rest), rt. reflexivity.
  - destruct (IH Hin (after_stop rt x)) as (before & after & rt' & ->).
    exists (stop_events rt x ++ SqlDelete :: before)%list, after, rt'.
    now rewrite <- !app_assoc.
Qed.

(** C3 (amended). When the sweeper can read the creation time of the
    finite sessions, one pass returns normally whatever the container
    runtime answers.  After its [SELECT] it goes through the sessions with
    [ttl > 0] and [created + ttl <= now] in the order of the table and makes,
    for each of them, one stop attempt on the container name (a lookup,
    then a stop when the lookup finds the container) followed by a [DELETE]
    by container name: a name carried by [k] expired sessions is attempted
    [k] times.  Afterwards the table holds neither an expired session nor
    any row under its container name. *)
Theorem cleanup_stops_and_deletes_expired :
  forall (lib : DateLib) (R : Type) (client : Docker R)
         (now_ts : Z) (w : world R),
    finite_rows_readable (table w) ->
    exists w' names,
      cleanup_old_containers now_ts w = (Ok tt, w')
      /\ names = map container_name (filter (is_expired now_ts) (table w))
      /\ log w' = (log w ++ SqlSelect :: sweep_events (runtime w) names)%list
      /\ forall r created_at,
           In r (table w) -> 0 < ttl r ->
           created_ts (created r) = Ok created_at ->
           created_at + ttl r <= now_ts ->
           (exists before after rt,
              sweep_events (runtime w) names
              = (before ++ stop_events rt (container_name r)
                        ++ SqlDelete :: after)%list)
           /\ count_occ string_dec names (container_name r)
              = List.length
                  (filter (fun r' => is_expired now_ts r'
                                     && String.eqb (container_name r')
                                                   (container_name r))
                          (table w))
           /\ ~ In r (table w')
           /\ forall r', In r' (table w') -> container_name r' <> container_name r.
Proof.
  intros lib R client now_ts w Hread.
  unfold cleanup_old_containers, bind, query, lift.
  cbn [table runtime log]. rewrite (expired_names_select now_ts _ Hread).
  match goal with |- context [stop_and_delete ?names ?w1] =>
    destruct (stop_and_delete_run names w1) as (w' & evs & Hrun & Htab & Hlog & ->)
  end.
  cbn [table runtime log] in Htab, Hlog.
  exists w', (map container_name (filter (is_expired now_ts) (table w))).
  rewrite Hrun.
  split; [reflexivity|]. split; [reflexivity|].
  split; [rewrite Hlog, <- app_assoc; reflexivity|].
  intros r created_at Hin Hfinite Hcreated Hpast.
  assert (Hname : In (container_name r)
                     (map container_name (filter (is_expired now_ts) (table w)))).
  { apply in_map, filter_In. split; [exact Hin|].
    unfold is_expired. rewrite Hcreated.
    apply andb_true_iff. split; [now apply Z.ltb_lt | now apply Z.leb_le]. }
  split; [now apply sweep_events_block|].
  split; [apply count_occ_names|].
  rewrite Htab. split.
  - rewrite in_delete_all. tauto.
  - intros r' Hin' Heq. apply in_delete_all in Hin'.
    destruct Hin' as [_ Hnot]. apply Hnot. now rewrite Heq.
Qed.

(** *** Lease lengths stay non-negative *)

Section NonNegative.

Context {lib : DateLib} {R : Type} {client : Docker R}.
Variable environ : list (string * string).

Lemma ttl_nonneg_update t u n st :
  0 <= t -> ttl_nonneg st -> ttl_nonneg (Sql.update_ttl t u n st).
Proof.
  intros Ht Hst. destruct u as [u|]; [|exact Hst]. cbn [Sql.update_ttl].
  apply Forall_map. eapply Forall_impl; [|exact Hst].
  intros r Hr. cbv beta. destruct (Sql.same_key u n r); [exact Ht|exact Hr].
Qed.

Lemma ttl_nonneg_filter f st : ttl_nonneg st -> ttl_nonneg (filter f st).
Proof.
  intros Hst. apply Forall_forall. intros r Hin.
  apply filter_In in Hin. destruct Hin as [Hin _].
  revert r Hin. now apply Forall_forall.
Qed.

Lemma ttl_nonneg_delete_all names st :
  ttl_nonneg st ->
  ttl_nonneg (fold_left (fun st n => Sql.delete_by_name n st) names st).
Proof.
  revert st. induction names as [|n rest IH]; intros st Hst; cbn [fold_left].
  - exact Hst.
  - apply IH. now apply ttl_nonneg_filter.
Qed.

Lemma requested_ttl_nonneg req t :
  ttl_arg_nonneg req -> requested_ttl req = Ok t -> 0 <= t.
Proof.
  unfold requested_ttl, ttl_arg_nonneg, Py.int. intros Harg.
  destruct (dict_get "ttl" (args req)) as [raw|] eqn:Hget.
  - destruct (int_of_str raw) as [z|] eqn:Hz; [|discriminate].
    intros [= <-]. eapply Harg; [reflexivity|exact Hz].
  - intros [= <-]. lia.
Qed.

Lemma added_seconds_nonneg req t :
  ttl_arg_nonneg req -> added_seconds req = Ok t -> 0 <= t.
Proof.
  unfold added_seconds, ttl_arg_nonneg, Py.int. intros Harg.
  destruct (dict_get "ttl" (args req)) as [raw|] eqn:Hget.
  - destruct (int_of_str raw) as [z|] eqn:Hz; [|discriminate].
    intros [= <-]. eapply Harg; [reflexivity|exact Hz].
  - intros [= <-]. lia.
Qed.

Lemma api_start_nonneg image_name req now rnd (w : world R) :
  ttl_nonneg (table w) -> ttl_arg_nonneg req ->
  ttl_nonneg (table (snd (api_start environ image_name req now rnd w))).
Proof.
  intros Hw Hreq. unfold api_start, bind, lift, docker, execute, ret.
  destruct (unidentified (get_user_id req)); [exact Hw|].
  destruct (requested_ttl req) as [t|e] eqn:Ht; [|exact Hw].
  cbn [runtime table log].
  destruct (images_pull (runtime w) _) as [rt1 [e1|]]; cbn [runtime table log];
    [exact Hw|].
  destruct (containers_run rt1 _ _) as [rt2 [e2|]]; cbn [runtime table log];
    [exact Hw|].
  destruct (exec_run rt2 _) as [rt3 ok]. cbn [snd runtime table log].
  destruct (Sql.bind_integer t); [|exact Hw]. cbn [snd table].
  unfold Sql.insert_or_replace. apply Forall_app. split.
  - now apply ttl_nonneg_filter.
  - constructor; [|constructor]. cbn [ttl]. now apply (requested_ttl_nonneg req).
Qed.

Lemma api_list_table req now (w : world R) :
  table (snd (api_list environ req now w)) = table w.
Proof.
  unfold api_list, bind, lift, query, ret.
  destruct (unidentified (get_user_id req)); [reflexivity|].
  cbn [table runtime log].
  destruct (list_entries _ _ _); reflexivity.
Qed.

Lemma api_stop_nonneg name req (w : world R) :
  ttl_nonneg (table w) -> ttl_nonneg (table (snd (api_stop name req w))).
Proof.
  intros Hw. unfold api_stop, bind, query, execute, ret.
  destruct (unidentified (get_user_id req)); [exact Hw|].
  cbn [table runtime log].
  destruct (Sql.select_one _ _ _); [|exact Hw].
  match goal with |- context [try_stop name ?w1] =>
    destruct (try_stop_run name w1) as (rt & evs & Hstop & _)
  end.
  rewrite Hstop. cbn [snd table].
  now apply ttl_nonneg_filter.
Qed.

Lemma toggle_autokill_nonneg name req (w : world R) :
  ttl_nonneg (table w) -> ttl_nonneg (table (snd (toggle_autokill name req w))).
Proof.
  intros Hw. unfold toggle_autokill, bind, execute, ret.
  destruct (json_truthy (is_infinite req)); cbn [snd table];
    apply ttl_nonneg_update; (lia || exact Hw).
Qed.

Lemma extend_session_nonneg name req now_ts (w : world R) :
  ttl_nonneg (table w) -> ttl_arg_nonneg req ->
  ttl_nonneg (table (snd (extend_session name req now_ts w))).
Proof.
  intros Hw Hreq. unfold extend_session, bind, lift, query, execute, ret.
  destruct (String.eqb (method req) "OPTIONS"); [exact Hw|].
  destruct (added_seconds req) as [added|e] eqn:Hadd; [|exact Hw].
  cbn [table runtime log].
  destruct (Sql.select_one _ _ _) as [r|]; [|exact Hw].
  destruct (ttl r =? 0); [exact Hw|].
  destruct (created_ts (created r)) as [old_created|e]; [|exact Hw].
  destruct (Sql.bind_integer _); [|exact Hw].
  cbn [snd table]. apply ttl_nonneg_update; [|exact Hw].
  pose proof (added_seconds_nonneg req added Hreq Hadd). lia.
Qed.

Lemma cleanup_nonneg now_ts (w : world R) :
  ttl_nonneg (table w) ->
  ttl_nonneg (table (snd (cleanup_old_containers now_ts w))).
Proof.
  intros Hw. unfold cleanup_old_containers, bind, lift, query.
  cbn [table runtime log].
  destruct (expired_names now_ts _) as [names|e]; [|exact Hw].
  match goal with |- context [stop_and_delete names ?w1] =>
    destruct (stop_and_delete_run names w1) as (w' & evs & Hrun & Htab & _)
  end.
  rewrite Hrun. cbn [snd table] in *. rewrite Htab.
  now apply ttl_nonneg_delete_all.
Qed.

End NonNegative.

(** A handler wrapped by [run] leaves the same table as the handler. *)
Lemma table_after_bind_ret {R A B : Type} (c : M R A) (f : A -> B) (w : world R) :
  table (snd (bind c (fun a => ret (f a)) w)) = table (snd (c w)).
Proof.
  unfold bind, ret. destruct (c w) as [[a|e] w']; reflexivity.
Qed.

(** C5 (amended). If every stored [ttl] is non-negative and the operation
    asks for no negative lease length, then every stored [ttl] is
    non-negative after the operation, be it a provisioning, a listing, a
    stop, a toggle, an extension or a sweep. *)
Theorem ttl_nonneg_preserved :
  forall (lib : DateLib) (R : Type) (client : Docker R)
         (environ : list (string * string)) (op : operation) (w : world R),
    ttl_nonneg (table w) ->
    asks_nonneg op ->
    ttl_nonneg (table (snd (run environ op w))).
Proof.
  intros lib R client environ op w Hw Hop.
  destruct op as [image_name req now rnd | req now | name req | name req
                 | name req now_ts | now_ts];
    cbn [run asks_nonneg] in *.
  - rewrite table_after_bind_ret. now apply api_start_nonneg.
  - rewrite table_after_bind_ret, api_list_table. exact Hw.
  - rewrite table_after_bind_ret. now apply api_stop_nonneg.
  - rewrite table_after_bind_ret. now apply toggle_autokill_nonneg.
  - rewrite table_after_bind_ret. now apply extend_session_nonneg.
  - rewrite (table_after_bind_ret _ (fun _ => None)). now apply cleanup_nonneg.
Qed.

(** *** Provisioning *)

(** C6. For an identified caller whose [ttl] argument reads as an integer,
    if the image pull fails, or the container launch fails after a
    successful pull, [api_start] answers with status 500 and an error
    message, sends no statement to the table and leaves it unchanged. *)
Theorem api_start_failure_leaves_store :
  forall (lib : DateLib) (R : Type) (client : Docker R)
         (environ : list (string * string)) (image_name : string)
         (req : request) (now : datetime) (rnd : entropy) (w : world R) (t : Z),
    unidentified (get_user_id req) = false ->
    requested_ttl req = Ok t ->
    launch_fails (runtime w) (full_image_of environ image_name)
                 (fresh_name (get_user_id req) image_name rnd) ->
    exists message w' evs,
      api_start environ image_name req now rnd w
      = (Ok (JObj [("error", JStr message)], 500), w')
      /\ table w' = table w
      /\ log w' = (log w ++ evs)%list
      /\ ~ In SqlInsert evs.
Proof.
  intros lib R client environ image_name req now rnd w t Hid Httl Hfail.
  unfold launch_fails in Hfail.
  unfold api_start, bind, lift, docker, execute, ret.
  rewrite Hid, Httl. cbn [runtime table log].
  destruct (images_pull (runtime w) _) as [rt1 [e1|]]; cbn [runtime table log].
  - do 2 eexists. exists [ImagesPull (full_image_of environ image_name)].
    repeat split. cbn. intuition discriminate.
  - destruct (containers_run rt1 _ _) as [rt2 [e2|]]; cbn [runtime table log];
      [|contradiction].
    do 2 eexists.
    exists [ImagesPull (full_image_of environ image_name);
            ContainersRun (full_image_of environ image_name)
                          (fresh_name (get_user_id req) image_name rnd)].
    repeat split.
    + now rewrite <- app_assoc.
    + cbn. intuition discriminate.
Qed.

(** *** Listing *)

Section Listing.

Context {lib : DateLib}.

Lemma list_entry_describes domain now r entry :
  list_entry domain now r = Ok entry -> describes entry r.
Proof.
  unfold list_entry, describes.
  destruct (ttl r =? 0).
  - destruct (format_uptime _ _); [|discriminate].
    intros [= <-]. eexists. now repeat split.
  - destruct (created_dt _) as [created_at|]; [|discriminate].
    destruct (DateTime.sub now created_at); [|discriminate].
    destruct (DateTime.sub _ now); [|discriminate].
    intros [= <-]. eexists. now repeat split.
Qed.

Lemma list_entries_describe domain now rows :
  (forall r, In r rows -> exists entry, list_entry domain now r = Ok entry) ->
  exists entries,
    list_entries domain now rows = Ok entries /\ Forall2 describes entries rows.
Proof.
  induction rows as [|r rows IH]; intros Hread.
  - exists []. now split.
  - destruct (Hread r (or_introl eq_refl)) as [entry Hentry].
    destruct IH as (entries & Hrun & Hdesc).
    { intros r' Hin. apply Hread. now right. }
    exists (entry :: entries). cbn [list_entries]. rewrite Hentry, Hrun.
    split; [reflexivity|]. constructor; [|exact Hdesc].
    now apply list_entry_describes with domain now.
Qed.

End Listing.

(** C8. For an identified caller whose own rows can be rendered,
    [api_list] answers with one entry for each row stored under the caller's
    identity, in the order of the table, and with nothing else: every row
    behind the listing is in the table under the caller's [user_id], also
    when another owner holds a row with the same container name. *)
Theorem api_list_only_own_sessions :
  forall (lib : DateLib) (R : Type) (client : Docker R)
         (environ : list (string * string)) (req : request) (now : datetime)
         (w : world R),
    unidentified (get_user_id req) = false ->
    (forall r, In r (table w) -> user_id r = get_user_id req ->
       exists entry,
         list_entry (getenv environ "DOMAIN" "workspaces.domain.local") now r
         = Ok entry) ->
    exists entries rows w',
      api_list environ req now w
      = (Ok (JObj [("containers", JArr entries)], 200), w')
      /\ Forall2 describes entries rows
      /\ (forall r, In r rows <-> In r (table w) /\ user_id r = get_user_id req).
Proof.
  intros lib R client environ req now w Hid Hread.
  unfold api_list, bind, lift, query, ret. rewrite Hid. cbn [table runtime log].
  destruct (list_entries_describe
              (getenv environ "DOMAIN" "workspaces.domain.local") now
              (Sql.select_by_user (get_user_id req) (table w)))
    as (entries & Hrun & Hdesc).
  { intros r Hin. apply filter_In in Hin. destruct Hin as [Hin Hu].
    apply Hread; [exact Hin | now apply String.eqb_eq]. }
  rewrite Hrun.
  exists entries, (Sql.select_by_user (get_user_id req) (table w)).
  eexists. split; [reflexivity|]. split; [exact Hdesc|].
  intros r. unfold Sql.select_by_user. now rewrite filter_In, String.eqb_eq.
Qed.

(** *** Requests without an identity *)

Section Identity.

Context {lib : DateLib} {R : Type} {client : Docker R}.
Variable environ : list (string * string).

(** [api_start], [api_list] and [api_stop] turn an unidentified caller away
    before any statement or Docker call: the world, log included, is the one
    they were given. *)
Lemma unidentified_rejected req (w : world R) :
  unidentified (get_user_id req) = true ->
  (forall image_name now rnd,
     api_start environ image_name req now rnd w = (Ok unauthorized, w))
  /\ (forall now, api_list environ req now w = (Ok unauthorized, w))
  /\ (forall name, api_stop name req w = (Ok unauthorized, w)).
Proof.
  intros Hanon. unfold api_start, api_list, api_stop. rewrite Hanon.
  now repeat split.
Qed.

End Identity.

(** C2 (what the code does). A request that carries neither the identity
    header nor a session identity is unidentified, yet [toggle_autokill]
    sends its [UPDATE] to the table and answers with success and status 200,
    and [extend_session] sends its [SELECT] under the name ['anonymous'] and
    answers 404 on an empty table. *)
Theorem toggle_autokill_without_identity :
  forall (lib : DateLib) (R : Type) (client : Docker R)
         (name : string) (body : list (string * json)) (w : world R),
    let req := {| method := "POST"; authentik_username := None;
                  session_user_id := None; args := []; json_body := body |} in
    unidentified (get_user_id req) = true
    /\ toggle_autokill name req w
       = (Ok (JObj [("success", JBool true);
                    ("status", JStr (if json_truthy (is_infinite req)
                                     then "infinite" else "finite"))], 200),
          {| table := table w; runtime := runtime w;
             log := (log w ++ [SqlUpdate])%list |})
    /\ extend_session name req 0
         {| table := []; runtime := runtime w; log := log w |}
       = (Ok (JObj [("error", JStr "Container not found")], 404),
          {| table := []; runtime := runtime w;
             log := (log w ++ [SqlSelect])%list |}).
Proof.
  intros lib R client name body w req.
  split; [reflexivity|]. split; [|reflexivity].
  unfold toggle_autokill, bind, execute, ret.
  destruct (json_truthy (is_infinite req)); reflexivity.
Qed.

(** *** What the sweeper does to namesakes and to integer creation times *)

(** The sweeper keeps every row whose container name is not the name of an
    expired session. *)
Lemma cleanup_keeps_other_names :
  forall (lib : DateLib) (R : Type) (client : Docker R)
         (now_ts : Z) (w : world R) (r : session),
    finite_rows_readable (table w) ->
    In r (table w) ->
    ~ In (container_name r)
         (map container_name (filter (is_expired now_ts) (table w))) ->
    In r (table (snd (cleanup_old_containers now_ts w))).
Proof.
  intros lib R client now_ts w r Hread Hin Hother.
  unfold cleanup_old_containers, bind, query, lift.
  cbn [table runtime log]. rewrite (expired_names_select now_ts _ Hread).
  match goal with |- context [stop_and_delete ?names ?w1] =>
    destruct (stop_and_delete_run names w1) as (w' & evs & Hrun & Htab & _)
  end.
  rewrite Hrun. cbn [snd table] in *. rewrite Htab. now apply in_delete_all.
Qed.

(** C4 (what the code does). With an infinite session of user [a-b] and an
    expired lease of user [a] stored under one container name, a sweep stops
    the container of that name and [DELETE ... WHERE container_name=?]
    removes both rows: the infinite session is gone. *)
Theorem cleanup_deletes_infinite_namesake :
  cleanup_old_containers 100
    (Scenario.world_of Scenario.namesakes ["workspaces-a-b-c-0123abcd"])
  = (Ok tt,
     {| table := [];
        runtime := {| running := []; unavailable := [];
                      stuck := [] |};
        log := [SqlSelect;
                ContainersGet "workspaces-a-b-c-0123abcd";
                ContainerStop "workspaces-a-b-c-0123abcd";
                SqlDelete] |}).
Proof. vm_compute. reflexivity. Qed.

(** The two names of [Scenario.namesakes] are names [api_start] builds. *)
Example fresh_name_collision :
  fresh_name "a-b" "c" Scenario.dice = "workspaces-a-b-c-0123abcd"
  /\ fresh_name "a" "b-c" Scenario.dice = "workspaces-a-b-c-0123abcd".
Proof. split; reflexivity. Qed.

(** Two texts of one instant, an ISO text and a text of decimal digits that
    is not an ISO text, are read alike by the sweeper and by
    [extend_session]. *)
Lemma created_ts_text_forms_agree :
  forall (lib : DateLib) (iso epoch : string) (dt : datetime),
    fromisoformat (replace_char "Z"%char "+00:00" iso) = Some dt ->
    fromisoformat (replace_char "Z"%char "+00:00" epoch) = None ->
    int_of_str epoch = Some (int_timestamp local_offset dt) ->
    created_ts (PStr iso) = created_ts (PStr epoch).
Proof.
  intros lib iso epoch dt Hiso Hnot Hint. unfold created_ts, Py.int.
  now rewrite Hiso, Hnot, Hint.
Qed.

(** [api_list] renders a row alike whether its creation time is an ISO text
    or the integer epoch of the same local time. *)
Lemma list_entry_forms_agree :
  forall (lib : DateLib) (domain : string) (now : datetime)
         (u n i p iso : string) (z t : Z),
    fromisoformat iso = Some (fromtimestamp local_offset z) ->
    list_entry domain now
      {| user_id := u; container_name := n; image := i; password := p;
         created := PStr iso; ttl := t |}
    = list_entry domain now
        {| user_id := u; container_name := n; image := i; password := p;
           created := PInt z; ttl := t |}.
Proof.
  intros lib domain now u n i p iso z t Hiso.
  unfold list_entry, format_uptime, created_dt. cbn [created ttl Py.int].
  now rewrite Hiso.
Qed.

(** C9 (what the code does). On a session whose [created] column holds an
    integer epoch, the sweeper and [extend_session] leave with
    [AttributeError]: the expired session is neither stopped nor deleted and
    the lease is not extended, while [api_list] renders the same row. *)
Theorem integer_created_raises :
  (forall (lib : DateLib) (z : Z),
     created_ts (PInt z) = Raise AttributeError
     /\ created_dt (PInt z) = Ok (fromtimestamp local_offset z))
  /\ cleanup_old_containers 1700007200
       (Scenario.world_of Scenario.integer_epoch ["workspaces-bob-brave-0123abcd"])
     = (Raise AttributeError,
        {| table := Scenario.integer_epoch;
           runtime := {| running := ["workspaces-bob-brave-0123abcd"];
                         unavailable := []; stuck := [] |};
           log := [SqlSelect] |})
  /\ extend_session "workspaces-bob-brave-0123abcd"
       (Scenario.get_as (Some "bob") [("ttl", "7200")]) 1700000060
       (Scenario.world_of Scenario.integer_epoch ["workspaces-bob-brave-0123abcd"])
     = (Raise AttributeError,
        {| table := Scenario.integer_epoch;
           runtime := {| running := ["workspaces-bob-brave-0123abcd"];
                         unavailable := []; stuck := [] |};
           log := [SqlSelect] |})
  /\ exists entry,
       fst (api_list [] (Scenario.get_as (Some "bob") [])
              (fromtimestamp 0 1700000060)
              (Scenario.world_of Scenario.integer_epoch
                 ["workspaces-bob-brave-0123abcd"]))
       = Ok (JObj [("containers", JArr [entry])], 200).
Proof.
  split; [intros lib z; split; reflexivity|].
  split; [vm_compute; reflexivity|].
  split; [vm_compute; reflexivity|].
  eexists. vm_compute. reflexivity.
Qed.

(** *** The statements at concrete tables *)

Import Scenario.



(** Bob, identified by the proxy header but without an identity in the
    Flask session, toggles his own one-hour lease to infinite: the answer is
    ["infinite"], and the lease still has [ttl = 3600]. *)
Lemma toggle_autokill_ignores_header_witness :
  get_user_id Cases.toggle_by_header = "bob"
  /\ toggle_autokill "workspaces-bob-brave-0123abcd" Cases.toggle_by_header
       (world_of two_owners ["workspaces-bob-brave-0123abcd"])
     = (Ok (JObj [("success", JBool true); ("status", JStr "infinite")], 200),
        {| table := two_owners;
           runtime := {| running := ["workspaces-bob-brave-0123abcd"];
                         unavailable := []; stuck := [] |};
           log := [SqlUpdate] |})
  /\ Sql.select_one "bob" "workspaces-bob-brave-0123abcd"
       (table (snd (toggle_autokill "workspaces-bob-brave-0123abcd"
                      Cases.toggle_by_header
                      (world_of two_owners ["workspaces-bob-brave-0123abcd"]))))
     = Some (row "bob" "workspaces-bob-brave-0123abcd" at_epoch 3600).
Proof.
  split; [reflexivity|].
  exact (toggle_autokill_ignores_header runtime_state toy_docker
           "workspaces-bob-brave-0123abcd" Cases.toggle_by_header
           (world_of two_owners ["workspaces-bob-brave-0123abcd"])
           (row "bob" "workspaces-bob-brave-0123abcd" at_epoch 3600)
           eq_refl eq_refl eq_refl).
Defined.

Lemma toggle_autokill_sets_mode_witness :
  (exists w',
     toggle_autokill "workspaces-bob-brave-0123abcd" (post_as (Some "bob") true)
       (world_of two_owners [])
     = (Ok (JObj [("success", JBool true); ("status", JStr "infinite")], 200), w')
     /\ Sql.select_one "bob" "workspaces-bob-brave-0123abcd" (table w')
        = Some (row "bob" "workspaces-bob-brave-0123abcd" at_epoch 0))
  /\ (exists w',
        toggle_autokill "workspaces-amy-brave-89ef7654" (post_as (Some "amy") false)
          (world_of two_owners [])
        = (Ok (JObj [("success", JBool true); ("status", JStr "finite")], 200), w')
        /\ Sql.select_one "amy" "workspaces-amy-brave-89ef7654" (table w')
           = Some (row "amy" "workspaces-amy-brave-89ef7654" at_epoch 7200)).
Proof.
  split.
  - exact (toggle_autokill_sets_mode runtime_state toy_docker
             "workspaces-bob-brave-0123abcd" (post_as (Some "bob") true)
             (world_of two_owners [])
             (row "bob" "workspaces-bob-brave-0123abcd" at_epoch 3600) true
             eq_refl eq_refl eq_refl).
  - exact (toggle_autokill_sets_mode runtime_state toy_docker
             "workspaces-amy-brave-89ef7654" (post_as (Some "amy") false)
             (world_of two_owners [])
             (row "amy" "workspaces-amy-brave-89ef7654" at_epoch 0) false
             eq_refl eq_refl eq_refl).
Defined.


(** A sweep at 100 over [mixed]: Bob's container is found and refuses to
    stop, Carl's container is not found, and both expired rows are deleted
    all the same. *)
Lemma cleanup_stops_and_deletes_expired_witness :
  finite_rows_readable mixed
  /\ exists w',
       cleanup_old_containers 100 stubborn = (Ok tt, w')
       /\ log w'
          = [SqlSelect;
             ContainersGet "workspaces-bob-brave-0123abcd";
             ContainerStop "workspaces-bob-brave-0123abcd";
             SqlDelete;
             ContainersGet "workspaces-carl-edge-11112222";
             SqlDelete]
       /\ ~ In (row "bob" "workspaces-bob-brave-0123abcd" at_epoch 10) (table w')
       /\ ~ In (row "carl" "workspaces-carl-edge-11112222" at_epoch 20) (table w').
Proof.
  assert (Hread : finite_rows_readable mixed).
  { intros r Hin _. exists 0.
    assert (Hall : Forall (fun r => created_ts (created r) = Ok 0) mixed)
      by (repeat constructor).
    revert r Hin. now apply Forall_forall. }
  split; [exact Hread|].
  destruct (cleanup_stops_and_deletes_expired utc_dates runtime_state toy_docker
              100 stubborn Hread)
    as (w' & names & Hrun & -> & Hlog & Hrows).
  destruct (Hrows (row "bob" "workspaces-bob-brave-0123abcd" at_epoch 10) 0)
    as (_ & _ & Hbob & _);
    [left; reflexivity | reflexivity | reflexivity | cbn; lia |].
  destruct (Hrows (row "carl" "workspaces-carl-edge-11112222" at_epoch 20) 0)
    as (_ & _ & Hcarl & _);
    [right; right; left; reflexivity | reflexivity | reflexivity | cbn; lia |].
  exists w'. split; [exact Hrun|]. split; [exact Hlog|]. now split.
Defined.

(** C3 (as stated) fails: with two expired leases stored under one container
    name, one sweep tells the container of that name to stop twice. *)
Lemma cleanup_stops_namesake_twice :
  cleanup_old_containers 100 Cases.twin_leases
  = (Ok tt,
     {| table := [];
        runtime := runtime Cases.twin_leases;
        log := [SqlSelect;
                ContainersGet "workspaces-a-b-c-0123abcd";
                ContainerStop "workspaces-a-b-c-0123abcd";
                SqlDelete;
                ContainersGet "workspaces-a-b-c-0123abcd";
                ContainerStop "workspaces-a-b-c-0123abcd";
                SqlDelete] |}).
Proof. vm_compute. reflexivity. Qed.

(** C5 (as stated) fails: a provisioning with [?ttl=-5] stores [ttl = -5],
    and an extension by [-7200] of a lease with 1800 seconds left stores
    [ttl = -5400]. *)
Lemma negative_ttl_is_stored :
  ttl_nonneg (table (world_of two_owners []))
  /\ ~ ttl_nonneg
         (table (snd (run [] (Start "brave" (get_as (Some "alice") [("ttl", "-5")])
                                noon dice)
                        (world_of two_owners []))))
  /\ ~ ttl_nonneg
         (table (snd (run [] (Extend "workspaces-bob-brave-0123abcd"
                                (get_as (Some "bob") [("ttl", "-7200")]) 1800)
                        (world_of two_owners [])))).
Proof.
  split; [repeat constructor; cbn; lia|].
  split; intros Hall.
  - apply (proj1 (Forall_forall _ _)) with
      (x := {| user_id := "alice";
               container_name := "workspaces-alice-brave-0123abcd";
               image := "gitea.domain.local:3002/brave:latest";
               password := secure_password dice;
               created := PStr "1970-01-01T12:00:00"; ttl := -5 |}) in Hall.
    + cbn in Hall. lia.
    + vm_compute. intuition.
  - apply (proj1 (Forall_forall _ _)) with
      (x := row "bob" "workspaces-bob-brave-0123abcd" at_epoch (-5400)) in Hall.
    + cbn in Hall. lia.
    + vm_compute. intuition.
Qed.

(** A provisioning with [?ttl=7200] and an extension by 1800 keep the lease
    lengths of [two_owners] non-negative. *)
Lemma ttl_nonneg_preserved_witness :
  ttl_nonneg
    (table (snd (run [] (Start "brave" (get_as (Some "alice") [("ttl", "7200")])
                           noon dice)
                   (world_of two_owners []))))
  /\ ttl_nonneg
       (table (snd (run [] (Extend "workspaces-bob-brave-0123abcd"
                              (get_as (Some "bob") [("ttl", "1800")]) 1800)
                      (world_of two_owners [])))).
Proof.
  assert (Hbefore : ttl_nonneg (table (world_of two_owners [])))
    by (repeat constructor; cbn; lia).
  split.
  - apply (ttl_nonneg_preserved utc_dates runtime_state toy_docker []
             (Start "brave" (get_as (Some "alice") [("ttl", "7200")]) noon dice)
             (world_of two_owners []) Hbefore).
    intros raw z Hraw Hz. cbn in Hraw. injection Hraw as <-.
    vm_compute in Hz. injection Hz as <-. lia.
  - apply (ttl_nonneg_preserved utc_dates runtime_state toy_docker []
             (Extend "workspaces-bob-brave-0123abcd"
                (get_as (Some "bob") [("ttl", "1800")]) 1800)
             (world_of two_owners []) Hbefore).
    intros raw z Hraw Hz. cbn in Hraw. injection Hraw as <-.
    vm_compute in Hz. injection Hz as <-. lia.
Defined.

(** Alice asks for an image the registry does not serve, then for a name
    that is taken: both requests answer 500 and [two_owners] is unchanged. *)
Lemma api_start_failure_leaves_store_witness :
  (exists message w' evs,
     api_start [] "brave" (get_as (Some "alice") [("ttl", "7200")]) noon dice
       registry_down
     = (Ok (JObj [("error", JStr message)], 500), w')
     /\ table w' = two_owners
     /\ log w' = evs
     /\ ~ In SqlInsert evs)
  /\ (exists message w' evs,
        api_start [] "brave" (get_as (Some "alice") [("ttl", "7200")]) noon dice
          name_taken
        = (Ok (JObj [("error", JStr message)], 500), w')
        /\ table w' = two_owners
        /\ log w' = evs
        /\ ~ In SqlInsert evs).
Proof.
  split.
  - exact (api_start_failure_leaves_store utc_dates runtime_state toy_docker []
             "brave" (get_as (Some "alice") [("ttl", "7200")]) noon dice
             registry_down 7200 eq_refl eq_refl I).
  - exact (api_start_failure_leaves_store utc_dates runtime_state toy_docker []
             "brave" (get_as (Some "alice") [("ttl", "7200")]) noon dice
             name_taken 7200 eq_refl eq_refl I).
Defined.

(** User [a] lists the table in which user [a-b] holds a session under the
    same container name: the listing is built from the rows of [a] alone. *)
Lemma api_list_only_own_sessions_witness :
  exists entries rows w',
    api_list [] (get_as (Some "a") []) noon (world_of namesakes [])
    = (Ok (JObj [("containers", JArr entries)], 200), w')
    /\ Forall2 describes entries rows
    /\ (forall r, In r rows <-> In r namesakes /\ user_id r = "a").
Proof.
  apply (api_list_only_own_sessions utc_dates runtime_state toy_docker []
           (get_as (Some "a") []) noon (world_of namesakes []) eq_refl).
  intros r Hin Hown. cbn in Hin. destruct Hin as [<- | [<- | []]].
  - discriminate Hown.
  - eexists. vm_compute. reflexivity.
Defined.

(** ** Further properties of the handlers *)

(** *** Identity *)

(** X1. [get_user_id] never returns the empty string; a non-empty identity
    header wins over the session, a non-empty session identity is used when
    the header is missing or empty, and the caller is turned away by the
    guard [not user_id or user_id == 'anonymous'] exactly when the resolved
    identity is ['anonymous']. *)
Theorem get_user_id_resolution :
  forall req : request,
    get_user_id req <> ""
    /\ (unidentified (get_user_id req) = true <-> get_user_id req = "anonymous")
    /\ (forall h, authentik_username req = Some h -> h <> "" ->
          get_user_id req = h)
    /\ (forall s, or_default (authentik_username req) "" = "" ->
          session_user_id req = Some s -> s <> "" -> get_user_id req = s)
    /\ (or_default (authentik_username req) "" = "" ->
        or_default (session_user_id req) "" = "" ->
        get_user_id req = "anonymous").
Proof.
  intros req. unfold get_user_id, unidentified.
  destruct (authentik_username req) as [[|c h]|];
    destruct (session_user_id req) as [[|c' s]|]; cbn;
    repeat split; try discriminate; try congruence;
    try (intros ? [= <-] ?; congruence);
    try (intros ? ? [= <-] ?; congruence);
    try (intros H; apply String.eqb_eq in H; exact H);
    try (intros H; apply String.eqb_eq; exact H).
Qed.

(** *** Credentials *)

Lemma length_string_of_list_ascii l :
  String.length (string_of_list_ascii l) = List.length l.
Proof. induction l as [|c l IH]; cbn; [reflexivity | now rewrite IH]. Qed.

Lemma get_in_string s :
  forall n, (n < String.length s)%nat ->
            exists c, String.get n s = Some c /\ In c (list_ascii_of_string s).
Proof.
  induction s as [|c s IH]; intros n Hn; cbn in *; [lia|].
  destruct n as [|n].
  - exists c. split; [reflexivity | now left].
  - destruct (IH n) as (c' & Hget & Hin); [lia|].
    exists c'. split; [exact Hget | now right].
Qed.

Lemma choice_in_alphabet raw :
  In (choice password_chars raw) (list_ascii_of_string password_chars).
Proof.
  unfold choice.
  destruct (get_in_string password_chars (raw mod String.length password_chars))
    as (c & Hget & Hin).
  - apply Nat.mod_upper_bound. cbn. discriminate.
  - now rewrite Hget.
Qed.

(** X2. A generated password has the requested length, and each of its
    characters is one of the 70 characters of [chars]; none is a single
    quote, a backslash or white space, so the password cannot end the quoted
    argument of the [vncpasswd] command nor start an escape of [echo -e]. *)
Theorem generate_secure_password_alphabet :
  forall (length : nat) (raws : nat -> nat),
    String.length (generate_secure_password length raws) = length
    /\ Forall (fun c => In c (list_ascii_of_string password_chars)
                        /\ plain_in_quotes c = true)
              (list_ascii_of_string (generate_secure_password length raws)).
Proof.
  intros length raws. unfold generate_secure_password. split.
  - now rewrite length_string_of_list_ascii, length_map, length_seq.
  - rewrite list_ascii_of_string_of_list_ascii. apply Forall_map, Forall_forall.
    intros i _. split; [apply choice_in_alphabet|].
    assert (Hall : forallb plain_in_quotes (list_ascii_of_string password_chars)
                   = true) by reflexivity.
    rewrite forallb_forall in Hall. apply Hall, choice_in_alphabet.
Qed.

(** *** Uptime *)

(** X3. For a creation time read as a naive local time, both it and the
    current time lying between 1970-01-02 and 2514-05-30, [format_uptime]
    prints [hours] and [minutes] with [0 <= minutes < 60] and
    [hours*3600 + minutes*60 <= uptime < hours*3600 + minutes*60 + 60]
    seconds, also when the uptime is negative. *)
Theorem format_uptime_decomposition :
  forall (lib : DateLib) (created_str : value) (now created_at : datetime),
    created_dt created_str = Ok created_at ->
    utcoffset created_at = None ->
    utcoffset now = None ->
    plain_time created_at ->
    plain_time now ->
    let uptime := wall_us now - wall_us created_at in
    format_uptime created_str now
    = Ok (hm (hours_of uptime) (minutes_of uptime))
    /\ 0 <= minutes_of uptime < 60
    /\ seconds (3600 * hours_of uptime + 60 * minutes_of uptime) <= uptime
       < seconds (3600 * hours_of uptime + 60 * minutes_of uptime + 60).
Proof.
  intros lib created_str now created_at Hparse Hc Hn _ _ uptime.
  unfold format_uptime, DateTime.sub. rewrite Hparse, Hc, Hn.
  split; [reflexivity|].
  unfold hours_of, minutes_of, seconds, us_per_s.
  generalize uptime. clear. intros u.
  Z.div_mod_to_equations. lia.
Qed.

(** *** Stopping a session *)

Lemma select_one_none u n st :
  Sql.select_one u n st = None
  <-> forall r, In r st -> ~ (user_id r = u /\ container_name r = n).
Proof.
  unfold Sql.select_one. split.
  - intros Hnone r Hin Hkey. apply same_key_true in Hkey.
    now rewrite (find_none _ _ Hnone r Hin) in Hkey.
  - intros Hall. induction st as [|r st IH]; cbn [find]; [reflexivity|].
    destruct (Sql.same_key u n r) eqn:E.
    + apply same_key_true in E. now destruct (Hall r (or_introl eq_refl)).
    + apply IH. intros r' Hin. apply Hall. now right.
Qed.

Lemma select_one_delete_same u n st :
  Sql.select_one u n (Sql.delete_by_key u n st) = None.
Proof.
  apply select_one_none. intros r Hin Hkey.
  unfold Sql.delete_by_key in Hin. apply filter_In in Hin.
  destruct Hin as [_ Hneg]. apply same_key_true in Hkey.
  now rewrite Hkey in Hneg.
Qed.

Lemma in_delete_by_key r u n st :
  In r (Sql.delete_by_key u n st)
  <-> In r st /\ ~ (user_id r = u /\ container_name r = n).
Proof.
  unfold Sql.delete_by_key. rewrite filter_In, negb_true_iff.
  rewrite <- same_key_true. now destruct (Sql.same_key u n r); intuition.
Qed.

(** X4. [api_stop] on a container name under which the caller holds no
    session answers 404 after its [SELECT], makes no call on the Docker
    client and leaves the table unchanged, also when another owner holds a
    session under that name. *)
Theorem api_stop_not_found :
  forall (R : Type) (client : Docker R) (name : string) (req : request)
         (w : world R),
    unidentified (get_user_id req) = false ->
    (forall r, In r (table w) -> container_name r = name ->
               user_id r <> get_user_id req) ->
    api_stop name req w
    = (Ok (JObj [("error", JStr "Container not found or unauthorized")], 404),
       {| table := table w; runtime := runtime w;
          log := (log w ++ [SqlSelect])%list |}).
Proof.
  intros R client name req w Hid Hnone.
  assert (Hfind : Sql.select_one (get_user_id req) name (table w) = None).
  { apply select_one_none. intros r Hin [Hu Hn]. now apply (Hnone r Hin Hn). }
  unfold api_stop, bind, query, ret. rewrite Hid. cbn [table runtime log].
  now rewrite Hfind.
Qed.

(** X5. [api_stop] on a session of the caller answers with success whatever
    the Docker client does: after its [SELECT] it looks the container up by
    name, tells it to stop when the lookup finds it, then deletes the rows
    under the caller's identity and that name and no other row, so that a
    second [api_stop] with the same request answers 404. *)
Theorem api_stop_deletes_own_row :
  forall (R : Type) (client : Docker R) (name : string) (req : request)
         (w : world R) (r : session),
    unidentified (get_user_id req) = false ->
    Sql.select_one (get_user_id req) name (table w) = Some r ->
    exists w',
      api_stop name req w = (Ok (JObj [("success", JBool true)], 200), w')
      /\ log w'
         = (log w ++ SqlSelect :: stop_events (runtime w) name
                  ++ [SqlDelete])%list
      /\ runtime w' = after_stop (runtime w) name
      /\ (forall r', In r' (table w')
                     <-> In r' (table w)
                         /\ ~ (user_id r' = get_user_id req
                               /\ container_name r' = name))
      /\ fst (api_stop name req w')
         = Ok (JObj [("error", JStr "Container not found or unauthorized")], 404).
Proof.
  intros R client name req w r Hid Hrow.
  unfold api_stop at 1. unfold bind, query, execute, ret.
  rewrite Hid. cbn [table runtime log]. rewrite Hrow.
  match goal with |- context [try_stop name ?w1] =>
    destruct (try_stop_run name w1) as (rt & evs & Hstop & -> & ->)
  end.
  rewrite Hstop. cbn [table runtime log].
  eexists. split; [reflexivity|]. cbn [table runtime log].
  split; [now rewrite <- !app_assoc|].
  split; [reflexivity|].
  split; [intros r'; apply in_delete_by_key|].
  unfold api_stop, bind, query, ret. rewrite Hid. cbn [table runtime log].
  now rewrite select_one_delete_same.
Qed.

(** *** Requests with a [ttl] that is not an integer *)

(** X6. When the [ttl] query argument does not read as an integer,
    [api_start] (for an identified caller) and [extend_session] leave with
    [ValueError] before any statement or Docker call: the world is the one
    they were given. *)
Theorem invalid_ttl_raises_before_effects :
  forall (lib : DateLib) (R : Type) (client : Docker R)
         (environ : list (string * string)) (image_name name raw : string)
         (req : request) (now : datetime) (rnd : entropy) (now_ts : Z)
         (w : world R),
    dict_get "ttl" (args req) = Some raw ->
    int_of_str raw = None ->
    unidentified (get_user_id req) = false ->
    String.eqb (method req) "OPTIONS" = false ->
    api_start environ image_name req now rnd w = (Raise ValueError, w)
    /\ extend_session name req now_ts w = (Raise ValueError, w).
Proof.
  intros lib R client environ image_name name raw req now rnd now_ts w
         Harg Hbad Hid Hmethod.
  unfold api_start, extend_session, bind, lift, requested_ttl, added_seconds, Py.int.
  now rewrite Hid, Hmethod, Harg, Hbad.
Qed.

(** *** What the operations do to the table *)

Lemma delete_all_is_filter names :
  forall st,
    fold_left (fun st n => Sql.delete_by_name n st) names st
    = filter (fun r => negb (existsb (String.eqb (container_name r)) names)) st.
Proof.
  induction names as [|n rest IH]; intros st; cbn [fold_left existsb].
  - cbn. induction st as [|r st IHst]; cbn; [reflexivity | now rewrite <- IHst].
  - rewrite IH. unfold Sql.delete_by_name.
    induction st as [|r st IHst]; cbn [filter]; [reflexivity|].
    destruct (String.eqb (container_name r) n) eqn:E; cbn [negb orb filter].
    + exact IHst.
    + destruct (existsb _ rest); cbn [negb]; now rewrite IHst.
Qed.

Section TableChange.

Context {lib : DateLib} {R : Type} {client : Docker R}.
Variable environ : list (string * string).

Lemma api_start_change image_name req now rnd (w : world R) :
  table (snd (api_start environ image_name req now rnd w)) = table w
  \/ exists t,
       requested_ttl req = Ok t
       /\ table (snd (api_start environ image_name req now rnd w))
          = Sql.insert_or_replace (provisioned environ image_name req now rnd t)
              (table w).
Proof.
  unfold api_start, bind, lift, docker, execute, ret.
  destruct (unidentified (get_user_id req)); [now left|].
  destruct (requested_ttl req) as [t|e] eqn:Ht; [|now left].
  cbn [runtime table log].
  destruct (images_pull (runtime w) _) as [rt1 [e1|]]; cbn [runtime table log];
    [now left|].
  destruct (containers_run rt1 _ _) as [rt2 [e2|]]; cbn [runtime table log];
    [now left|].
  destruct (exec_run rt2 _) as [rt3 ok]. cbn [snd runtime table log].
  destruct (Sql.bind_integer t); [|now left]. cbn [snd table].
  right. now exists t.
Qed.

(** Each operation deletes rows, rewrites lease lengths or leaves the table
    alone, unless it is a provisioning that inserts its row. *)
Lemma run_table_change op (w : world R) :
  table_change (table w) (table (snd (run environ op w)))
  \/ exists image_name req now rnd t,
       op = Start image_name req now rnd
       /\ requested_ttl req = Ok t
       /\ table (snd (run environ op w))
          = Sql.insert_or_replace (provisioned environ image_name req now rnd t)
              (table w).
Proof.
  destruct op as [image_name req now rnd | req now | name req | name req
                 | name req now_ts | now_ts]; cbn [run].
  - rewrite table_after_bind_ret.
    destruct (api_start_change image_name req now rnd w) as [-> | (t & Ht & ->)].
    + left. constructor.
    + right. now exists image_name, req, now, rnd, t.
  - left. rewrite table_after_bind_ret, api_list_table. constructor.
  - left. rewrite table_after_bind_ret.
    unfold api_stop, bind, query, execute, ret.
    destruct (unidentified (get_user_id req)); [constructor|].
    cbn [table runtime log].
    destruct (Sql.select_one _ _ _); [|constructor].
    match goal with |- context [try_stop name ?w1] =>
      destruct (try_stop_run name w1) as (rt & evs & Hstop & _)
    end.
    rewrite Hstop. cbn [snd table]. constructor.
  - left. rewrite table_after_bind_ret.
    unfold toggle_autokill, bind, execute, ret.
    destruct (json_truthy (is_infinite req)); cbn [snd table]; constructor.
  - left. rewrite table_after_bind_ret.
    unfold extend_session, bind, lift, query, execute, ret.
    destruct (String.eqb (method req) "OPTIONS"); [constructor|].
    destruct (added_seconds req) as [added|e]; [|constructor].
    cbn [table runtime log].
    destruct (Sql.select_one _ _ _) as [r|]; [|constructor].
    destruct (ttl r =? 0); [constructor|].
    destruct (created_ts (created r)) as [old_created|e]; [|constructor].
    destruct (Sql.bind_integer _); [|constructor].
    cbn [snd table]. constructor.
  - left. rewrite (table_after_bind_ret _ (fun _ => None)).
    unfold cleanup_old_containers, bind, lift, query. cbn [table runtime log].
    destruct (expired_names now_ts _) as [names|e]; [|constructor].
    match goal with |- context [stop_and_delete names ?w1] =>
      destruct (stop_and_delete_run names w1) as (w' & evs & Hrun & Htab & _)
    end.
    rewrite Hrun. cbn [snd table] in *. rewrite Htab, delete_all_is_filter.
    constructor.
Qed.

End TableChange.

Lemma primary_key_filter keep st :
  Sql.primary_key st -> Sql.primary_key (filter keep st).
Proof.
  unfold Sql.primary_key. induction st as [|r st IH]; cbn [filter map].
  - trivial.
  - intros Hnodup. apply NoDup_cons_iff in Hnodup. destruct Hnodup as [Hnew Hrest].
    destruct (keep r); cbn [map]; [|now apply IH].
    constructor; [|now apply IH].
    intros Hin. apply Hnew. apply in_map_iff in Hin.
    destruct Hin as (r' & Hkey & Hin'). apply filter_In in Hin'.
    apply in_map_iff. exists r'. tauto.
Qed.

Lemma keys_update_ttl t u n st :
  map (fun r => (user_id r, container_name r)) (Sql.update_ttl t u n st)
  = map (fun r => (user_id r, container_name r)) st.
Proof.
  destruct u as [u|]; [|reflexivity]. cbn [Sql.update_ttl].
  rewrite map_map. apply map_ext. intros r.
  now destruct (Sql.same_key u n r).
Qed.

Lemma primary_key_insert r st :
  Sql.primary_key st -> Sql.primary_key (Sql.insert_or_replace r st).
Proof.
  intros Hst. unfold Sql.insert_or_replace, Sql.primary_key.
  rewrite map_app. cbn [map].
  apply (NoDup_Add (a := (user_id r, container_name r))
           (l := map (fun r => (user_id r, container_name r))
                   (Sql.delete_by_key (user_id r) (container_name r) st))).
  - rewrite <- (app_nil_r (map _ _)) at 1. apply Add_app.
  - split.
    + now apply primary_key_filter.
    + intros Hin. apply in_map_iff in Hin. destruct Hin as (r' & Hkey & Hin').
      apply in_delete_by_key in Hin'. destruct Hin' as [_ Hneq].
      apply Hneq. now injection Hkey.
Qed.

Lemma table_change_identity st st' r' :
  table_change st st' -> In r' st' ->
  exists r, In r st /\ same_identity r r'.
Proof.
  intros Hchange Hin. destruct Hchange.
  - exists r'. now repeat split.
  - apply filter_In in Hin. exists r'. now repeat split.
  - destruct u as [u|]; [|exists r'; now repeat split].
    cbn [Sql.update_ttl] in Hin. apply in_map_iff in Hin.
    destruct Hin as (r0 & <- & Hr0). exists r0. split; [exact Hr0|].
    now destruct (Sql.same_key u n r0).
Qed.

(** X7. The key [(user_id, container_name)] stays unique: if no two rows
    share it before an operation, no two rows share it afterwards. *)
Theorem primary_key_preserved :
  forall (lib : DateLib) (R : Type) (client : Docker R)
         (environ : list (string * string)) (op : operation) (w : world R),
    Sql.primary_key (table w) ->
    Sql.primary_key (table (snd (run environ op w))).
Proof.
  intros lib R client environ op w Hkey.
  destruct (run_table_change environ op w)
    as [Hchange | (image_name & req & now & rnd & t & _ & _ & ->)].
  - destruct Hchange.
    + exact Hkey.
    + now apply primary_key_filter.
    + unfold Sql.primary_key. now rewrite keys_update_ttl.
  - now apply primary_key_insert.
Qed.

(** X8. No operation rewrites the owner, the container name, the image, the
    credential or the creation time of a stored session: a row found after
    an operation is a row of the table before it up to its [ttl], or it is
    the row that a provisioning has just inserted for its caller. *)
Theorem stored_fields_immutable :
  forall (lib : DateLib) (R : Type) (client : Docker R)
         (environ : list (string * string)) (op : operation) (w : world R)
         (r' : session),
    In r' (table (snd (run environ op w))) ->
    (exists r, In r (table w) /\ same_identity r r')
    \/ (exists image_name req now rnd,
          op = Start image_name req now rnd
          /\ requested_ttl req = Ok (ttl r')
          /\ r' = provisioned environ image_name req now rnd (ttl r')).
Proof.
  intros lib R client environ op w r' Hin.
  destruct (run_table_change environ op w)
    as [Hchange | (image_name & req & now & rnd & t & Hop & Ht & Heq)].
  - left. now apply table_change_identity with (table (snd (run environ op w))).
  - rewrite Heq in Hin. unfold Sql.insert_or_replace in Hin.
    apply in_app_or in Hin. destruct Hin as [Hold | [<- | []]].
    + left. apply in_delete_by_key in Hold. exists r'. now repeat split.
    + right. now exists image_name, req, now, rnd.
Qed.

(** *** Provisioning, then looking the session up *)

Lemma find_app_list {A : Type} (f : A -> bool) (l1 l2 : list A) :
  find f (l1 ++ l2)%list
  = match find f l1 with
    | Some x => Some x
    | None => find f l2
    end.
Proof.
  induction l1 as [|x l1 IH]; cbn [app find]; [reflexivity|].
  destruct (f x); [reflexivity | exact IH].
Qed.

Lemma same_key_self r : Sql.same_key (user_id r) (container_name r) r = true.
Proof. now apply same_key_true. Qed.

Lemma select_one_insert_same r st :
  Sql.select_one (user_id r) (container_name r) (Sql.insert_or_replace r st)
  = Some r.
Proof.
  unfold Sql.insert_or_replace, Sql.select_one. rewrite find_app_list.
  fold (Sql.select_one (user_id r) (container_name r)
          (Sql.delete_by_key (user_id r) (container_name r) st)).
  rewrite select_one_delete_same. cbn [find]. now rewrite same_key_self.
Qed.

Lemma select_one_insert_other r u n st :
  (u, n) <> (user_id r, container_name r) ->
  Sql.select_one u n (Sql.insert_or_replace r st) = Sql.select_one u n st.
Proof.
  intros Hne. unfold Sql.insert_or_replace, Sql.select_one, Sql.delete_by_key.
  rewrite find_app_list. cbn [find].
  assert (Hr : Sql.same_key u n r = false).
  { destruct (Sql.same_key u n r) eqn:E; [|reflexivity].
    apply same_key_true in E. destruct E as [<- <-]. now contradiction Hne. }
  rewrite Hr.
  induction st as [|x st IH]; cbn [filter find]; [reflexivity|].
  destruct (Sql.same_key (user_id r) (container_name r) x) eqn:Ex; cbn [negb find].
  - destruct (Sql.same_key u n x) eqn:Eux; [|exact IH].
    apply same_key_true in Ex, Eux. destruct Ex as [Hu Hn], Eux as [Hu' Hn'].
    contradiction Hne. congruence.
  - destruct (Sql.same_key u n x); [reflexivity | exact IH].
Qed.

(** X9. When the pull and the launch succeed for an identified caller and
    the requested lease length fits the 64-bit INTEGER of the table,
    [api_start] answers 200 with the URL, the login, the credential, the
    lease length and the name, whatever the credential set-up in the
    container does; the session can then be fetched under the caller's
    identity and the new name with the fields of the answer, and the rows
    under every other key are as before. *)
Theorem api_start_stores_session :
  forall (lib : DateLib) (R : Type) (client : Docker R)
         (environ : list (string * string)) (image_name : string)
         (req : request) (now : datetime) (rnd : entropy) (w : world R)
         (t : Z) (rt1 rt2 : R),
    unidentified (get_user_id req) = false ->
    requested_ttl req = Ok t ->
    fits_integer t ->
    images_pull (runtime w) (full_image_of environ image_name) = (rt1, None) ->
    containers_run rt1 (full_image_of environ image_name)
      (fresh_name (get_user_id req) image_name rnd) = (rt2, None) ->
    let row := provisioned environ image_name req now rnd t in
    exists w',
      api_start environ image_name req now rnd w
      = (Ok (JObj [("url", JStr ("https://" ++ container_name row ++ "."
                                 ++ getenv environ "DOMAIN" "workspaces.domain.local"));
                   ("username", JStr "workspaces-user");
                   ("password", JStr (password row));
                   ("ttl", JInt t);
                   ("name", JStr (container_name row))], 200), w')
      /\ log w'
         = (log w ++ [ImagesPull (image row);
                      ContainersRun (image row) (container_name row);
                      ExecRun (container_name row); SqlInsert])%list
      /\ Sql.select_one (user_id row) (container_name row) (table w') = Some row
      /\ (forall u n, (u, n) <> (user_id row, container_name row) ->
            Sql.select_one u n (table w') = Sql.select_one u n (table w)).
Proof.
  intros lib R client environ image_name req now rnd w t rt1 rt2
         Hid Httl Hfits Hpull Hrun row.
  unfold api_start, bind, lift, docker, execute, ret.
  rewrite Hid, Httl. cbn [runtime table log]. rewrite Hpull.
  cbn [runtime table log]. rewrite Hrun. cbn [runtime table log].
  destruct (exec_run rt2 _) as [rt3 ok]. cbn [runtime table log].
  rewrite (bind_integer_fits t Hfits).
  eexists. split; [reflexivity|]. cbn [table log].
  split; [now rewrite <- !app_assoc|].
  split.
  - apply (select_one_insert_same row).
  - intros u n Hne. now apply (select_one_insert_other row).
Qed.

(** *** How an extension and a toggle move the expiry *)

(** X10. An extension of a lease that has not run out does not add
    [added] seconds to the time that is left: when the new length
    [(ttl - elapsed) + added] fits the 64-bit INTEGER of the table, the
    session is stored again with every field as before and that length, so
    the expiry instant [created + ttl] moves by [added - elapsed], where
    [elapsed] is the age of the session. *)
Theorem extend_session_moves_expiry :
  forall (lib : DateLib) (R : Type) (client : Docker R)
         (name : string) (req : request) (now_ts : Z) (w : world R)
         (r : session) (added created_at : Z),
    String.eqb (method req) "OPTIONS" = false ->
    added_seconds req = Ok added ->
    Sql.select_one (get_user_id req) name (table w) = Some r ->
    created_ts (created r) = Ok created_at ->
    0 < ttl r ->
    0 <= now_ts - created_at <= ttl r ->
    fits_integer (ttl r - (now_ts - created_at) + added) ->
    let new_ttl := ttl r - (now_ts - created_at) + added in
    exists w',
      fst (extend_session name req now_ts w)
      = Ok (JObj [("success", JBool true);
                  ("old_remaining", JInt (ttl r - (now_ts - created_at)));
                  ("added", JInt added);
                  ("new_ttl", JInt new_ttl) ], 200)
      /\ w' = snd (extend_session name req now_ts w)
      /\ Sql.select_one (get_user_id req) name (table w')
         = Some {| user_id := user_id r;
                   container_name := container_name r;
                   image := image r;
                   password := password r;
                   created := created r;
                   ttl := new_ttl |}
      /\ created_at + new_ttl
         = (created_at + ttl r) + (added - (now_ts - created_at)).
Proof.
  intros lib R client name req now_ts w r added created_at
         Hmethod Hadded Hrow Hcreated Hfinite Hage Hfits new_ttl.
  exists (snd (extend_session name req now_ts w)).
  unfold extend_session, bind, lift, query, execute, ret.
  rewrite Hmethod, Hadded. cbn [table runtime log]. rewrite Hrow.
  destruct (ttl r =? 0) eqn:Hinf; [apply Z.eqb_eq in Hinf; lia|].
  rewrite Hcreated.
  replace (Z.max 0 (ttl r - (now_ts - created_at)))
    with (ttl r - (now_ts - created_at)) by lia.
  fold new_ttl. rewrite (bind_integer_fits new_ttl Hfits).
  cbn [fst snd table].
  rewrite select_one_update_same, Hrow. cbn [option_map].
  unfold Sql.set_ttl.
  split; [reflexivity|]. split; [reflexivity|]. split; [reflexivity|].
  unfold new_ttl. lia.
Qed.

Section SweepAfter.

Context {lib : DateLib} {R : Type} {client : Docker R}.

Lemma all_rows_readable_finite st :
  all_rows_readable st -> finite_rows_readable st.
Proof. intros Hall r Hin _. now apply Hall. Qed.

Lemma all_rows_readable_update t u n st :
  all_rows_readable st -> all_rows_readable (Sql.update_ttl t u n st).
Proof.
  intros Hall r' Hin. destruct u as [u|]; [|now apply Hall].
  cbn [Sql.update_ttl] in Hin. apply in_map_iff in Hin.
  destruct Hin as (r & <- & Hr).
  destruct (Sql.same_key u n r); [cbn [Sql.set_ttl created]|]; now apply Hall.
Qed.

(** What a sweep leaves, when it can read the finite rows: the rows whose
    container name is not the name of an expired session. *)
Lemma cleanup_outcome now_ts (w : world R) :
  finite_rows_readable (table w) ->
  exists w' evs,
    cleanup_old_containers now_ts w = (Ok tt, w')
    /\ log w' = (log w ++ SqlSelect :: evs)%list
    /\ evs
       = sweep_events (runtime w)
           (map container_name (filter (is_expired now_ts) (table w)))
    /\ forall r,
         In r (table w')
         <-> In r (table w)
             /\ ~ In (container_name r)
                     (map container_name (filter (is_expired now_ts) (table w))).
Proof.
  intros Hread. unfold cleanup_old_containers, bind, query, lift.
  cbn [table runtime log]. rewrite (expired_names_select now_ts _ Hread).
  match goal with |- context [stop_and_delete ?names ?w1] =>
    destruct (stop_and_delete_run names w1) as (w' & evs & Hrun & Htab & Hlog & Hatt)
  end.
  cbn [table log] in Htab, Hlog. exists w', evs. rewrite Hrun.
  split; [reflexivity|].
  split; [rewrite Hlog, <- app_assoc; reflexivity|].
  split; [exact Hatt|].
  intros r. rewrite Htab. apply in_delete_all.
Qed.

End SweepAfter.

(** X11. Toggling a session of the caller to finite gives it a lease of
    7200 seconds counted from its creation, not from the toggle: when the
    session is at least 7200 seconds old, the sweep that follows makes,
    after its [SELECT], one stop attempt (a lookup of the container, then a
    stop when the lookup finds it) and one [DELETE] for each expired
    session, the toggled one among them, and leaves no row of the caller
    under that name. *)
Theorem toggle_finite_then_sweep :
  forall (lib : DateLib) (R : Type) (client : Docker R)
         (name : string) (req : request) (now_ts : Z) (w : world R)
         (r : session) (created_at : Z),
    session_user_id req = Some (user_id r) ->
    Sql.select_one (user_id r) name (table w) = Some r ->
    json_truthy (is_infinite req) = false ->
    all_rows_readable (table w) ->
    created_ts (created r) = Ok created_at ->
    created_at + 7200 <= now_ts ->
    exists w1 w2 names,
      toggle_autokill name req w
      = (Ok (JObj [("success", JBool true); ("status", JStr "finite")], 200), w1)
      /\ cleanup_old_containers now_ts w1 = (Ok tt, w2)
      /\ names = map container_name (filter (is_expired now_ts) (table w1))
      /\ log w2
         = (log w1 ++ SqlSelect :: sweep_events (runtime w1) names)%list
      /\ In name names
      /\ (exists before after rt,
            sweep_events (runtime w1) names
            = (before ++ stop_events rt name ++ SqlDelete :: after)%list)
      /\ Sql.select_one (user_id r) name (table w2) = None.
Proof.
  intros lib R client name req now_ts w r created_at
         Huser Hrow Hflag Hread Hcreated Hold.
  unfold toggle_autokill, bind, execute, ret. rewrite Hflag, Huser.
  eexists.
  match goal with |- context [(_, ?w1') = (_, _)] => set (w1 := w1') end.
  destruct (cleanup_outcome now_ts w1) as (w2 & evs & Hrun & Hlog & -> & Htab).
  { apply all_rows_readable_finite. subst w1. cbn [table].
    now apply all_rows_readable_update. }
  exists w2, (map container_name (filter (is_expired now_ts) (table w1))).
  split; [reflexivity|].
  assert (Hname : In name (map container_name
                             (filter (is_expired now_ts) (table w1)))).
  { unfold Sql.select_one in Hrow. apply find_some in Hrow.
    destruct Hrow as [Hin Hkey]. apply same_key_true in Hkey.
    destruct Hkey as [_ Hn].
    apply in_map_iff. exists (Sql.set_ttl 7200 r). split; [exact Hn|].
    apply filter_In. split.
    - subst w1. cbn [table Sql.update_ttl]. apply in_map_iff. exists r.
      split; [|exact Hin].
      replace (Sql.same_key (user_id r) name r) with true; [reflexivity|].
      symmetry. now apply same_key_true.
    - unfold is_expired. cbn [Sql.set_ttl ttl created]. rewrite Hcreated.
      apply andb_true_iff. split; [reflexivity | now apply Z.leb_le]. }
  split; [exact Hrun|]. split; [reflexivity|]. split; [exact Hlog|].
  split; [exact Hname|].
  split; [exact (sweep_events_block name _ Hname (runtime w1))|].
  apply select_one_none. intros r' Hin' [_ Hn']. apply Htab in Hin'.
  destruct Hin' as [_ Hnot]. apply Hnot. now rewrite Hn'.
Qed.

(** X12. A sweep that can read the finite rows leaves no work behind: a
    second sweep at the same instant sends its [SELECT], finds no expired
    session, makes no call on the Docker client and deletes nothing. *)
Theorem cleanup_twice :
  forall (lib : DateLib) (R : Type) (client : Docker R)
         (now_ts : Z) (w : world R),
    finite_rows_readable (table w) ->
    exists w1,
      cleanup_old_containers now_ts w = (Ok tt, w1)
      /\ cleanup_old_containers now_ts w1
         = (Ok tt, {| table := table w1; runtime := runtime w1;
                      log := (log w1 ++ [SqlSelect])%list |}).
Proof.
  intros lib R client now_ts w Hread.
  destruct (cleanup_outcome now_ts w Hread) as (w1 & evs & Hrun & _ & _ & Htab).
  exists w1. split; [exact Hrun|].
  assert (Hread1 : finite_rows_readable (table w1)).
  { intros r Hin. apply Hread. now apply Htab. }
  assert (Hnone : filter (is_expired now_ts) (table w1) = []).
  { destruct (filter (is_expired now_ts) (table w1)) as [|r rest] eqn:E;
      [reflexivity|].
    assert (Hr : In r (filter (is_expired now_ts) (table w1)))
      by (rewrite E; now left).
    apply filter_In in Hr. destruct Hr as [Hin Hexp].
    apply Htab in Hin. destruct Hin as [Hin Hnot]. contradiction Hnot.
    apply in_map, filter_In. now split. }
  unfold cleanup_old_containers, bind, query, lift. cbn [table runtime log].
  rewrite (expired_names_select now_ts _ Hread1), Hnone. reflexivity.
Qed.

(** *** What the listing shows *)

(** X13. A session whose lease has run out, but which no sweep has removed
    yet, is listed as finite with the time left ["0h 0m"]: the remaining time
    is cut at zero and never shown negative.  The creation time is read as a
    naive local time; it and the current time lie between 1970-01-02 and
    2514-05-30, and the expiry instant within the years 1 to 9999. *)
Theorem list_entry_expired_shows_zero :
  forall (lib : DateLib) (domain : string) (now created_at : datetime)
         (row : session),
    ttl row <> 0 ->
    created_dt (created row) = Ok created_at ->
    utcoffset created_at = None ->
    utcoffset now = None ->
    plain_time created_at ->
    plain_time now ->
    in_calendar (DateTime.add created_at (seconds (ttl row))) ->
    wall_us created_at + seconds (ttl row) <= wall_us now ->
    exists entry,
      list_entry domain now row = Ok entry
      /\ json_field "name" entry = Some (JStr (container_name row))
      /\ json_field "infinite" entry = Some (JBool false)
      /\ json_field "time_left" entry = Some (JStr "0h 0m").
Proof.
  intros lib domain now created_at row Hfinite Hparse Hc Hn _ _ _ Hpast.
  unfold list_entry. apply Z.eqb_neq in Hfinite. rewrite Hfinite, Hparse.
  unfold DateTime.sub, DateTime.add. cbn [utcoffset wall_us].
  rewrite Hc, Hn. eexists. split; [reflexivity|].
  cbn [json_field dict_get String.eqb Ascii.eqb Bool.eqb].
  rewrite Z.max_l by lia. repeat split.
Qed.

Section ListingFails.

Context {lib : DateLib}.

Lemma list_entries_raise domain now rows r e :
  In r rows -> list_entry domain now r = Raise e ->
  exists e', list_entries domain now rows = Raise e'.
Proof.
  induction rows as [|x rows IH]; intros Hin Hraise; [contradiction|].
  cbn [list_entries]. destruct Hin as [-> | Hin].
  - rewrite Hraise. now exists e.
  - destruct (list_entry domain now x) as [entry|e0]; [|now exists e0].
    destruct (IH Hin Hraise) as [e' ->]. now exists e'.
Qed.

End ListingFails.

(** X14. One row of the caller whose creation time is an ISO text with a
    UTC offset makes the whole listing fail: [now - created] mixes a naive
    and an aware time, the exception leaves [api_list] after its [SELECT],
    and no session of the caller is returned. *)
Theorem api_list_fails_on_aware_created :
  forall (lib : DateLib) (R : Type) (client : Docker R)
         (environ : list (string * string)) (req : request) (now : datetime)
         (w : world R) (r : session) (text : string) (dt : datetime)
         (offset : Z),
    unidentified (get_user_id req) = false ->
    In r (table w) ->
    user_id r = get_user_id req ->
    created r = PStr text ->
    fromisoformat text = Some dt ->
    utcoffset dt = Some offset ->
    utcoffset now = None ->
    exists e,
      api_list environ req now w
      = (Raise e, {| table := table w; runtime := runtime w;
                     log := (log w ++ [SqlSelect])%list |}).
Proof.
  intros lib R client environ req now w r text dt offset
         Hid Hin Hown Htext Hiso Haware Hnaive.
  assert (Hentry : list_entry (getenv environ "DOMAIN" "workspaces.domain.local")
                     now r = Raise TypeError).
  { unfold list_entry, format_uptime, created_dt, DateTime.sub.
    rewrite Htext, Hiso, Haware, Hnaive. now destruct (ttl r =? 0). }
  destruct (list_entries_raise
              (getenv environ "DOMAIN" "workspaces.domain.local") now
              (Sql.select_by_user (get_user_id req) (table w)) r TypeError)
    as [e He]; [|exact Hentry|].
  - apply filter_In. split; [exact Hin | now apply String.eqb_eq].
  - exists e. unfold api_list, bind, lift, query, ret. rewrite Hid.
    cbn [table runtime log]. now rewrite He.
Qed.

(** *** The image catalog *)

Lemma insert_by_perm {A : Type} (key : A -> string) x l :
  Permutation (insert_by key x l) (x :: l).
Proof.
  induction l as [|y l IH]; cbn [insert_by]; [reflexivity|].
  destruct (String.leb (key x) (key y)); [reflexivity|].
  rewrite IH. apply perm_swap.
Qed.

Lemma sorted_by_perm {A : Type} (key : A -> string) l :
  Permutation (sorted_by key l) l.
Proof.
  unfold sorted_by. induction l as [|x l IH]; cbn [fold_right]; [reflexivity|].
  rewrite insert_by_perm. now constructor.
Qed.

Lemma insert_by_sorted x l :
  Sorted by_name l -> Sorted by_name (insert_by entry_name x l).
Proof.
  induction l as [|y l IH]; intros Hl; cbn [insert_by].
  - repeat constructor.
  - destruct (String.leb (entry_name x) (entry_name y)) eqn:E.
    + constructor; [exact Hl | now constructor].
    + apply Sorted_inv in Hl. destruct Hl as [Hl Hhd].
      constructor; [now apply IH|].
      assert (Hyx : by_name y x).
      { unfold by_name. destruct (String.leb_total (entry_name x) (entry_name y));
          congruence. }
      destruct l as [|z l]; cbn [insert_by]; [now constructor|].
      destruct (String.leb (entry_name x) (entry_name z)); constructor;
        [exact Hyx | now apply HdRel_inv in Hhd].
Qed.

Lemma sorted_by_sorted l : Sorted by_name (sorted_by entry_name l).
Proof.
  unfold sorted_by. induction l as [|x l IH]; cbn [fold_right].
  - constructor.
  - now apply insert_by_sorted.
Qed.

Lemma existsb_eqb_in n seen :
  existsb (String.eqb n) seen = true <-> In n seen.
Proof.
  rewrite existsb_exists. split.
  - intros (x & Hin & Heq). apply String.eqb_eq in Heq. now subst.
  - intros Hin. exists n. split; [exact Hin | apply String.eqb_refl].
Qed.

Lemma first_seen_in names :
  forall seen n,
    In n (first_seen seen names)
    <-> In n names /\ prefix "workspaces/" n = true /\ ~ In n seen.
Proof.
  induction names as [|x rest IH]; intros seen n; cbn [first_seen In].
  - tauto.
  - destruct (prefix "workspaces/" x) eqn:Hp; cbn [negb].
    + destruct (existsb (String.eqb x) seen) eqn:Hs.
      * apply existsb_eqb_in in Hs. rewrite IH. intuition congruence.
      * assert (Hx : ~ In x seen).
        { intros Hin. apply existsb_eqb_in in Hin. congruence. }
        cbn [In]. rewrite IH. cbn [In].
        destruct (string_dec x n) as [-> | Hne]; intuition congruence.
    + rewrite IH. intuition congruence.
Qed.

Lemma first_seen_nodup names : forall seen, NoDup (first_seen seen names).
Proof.
  induction names as [|x rest IH]; intros seen; cbn [first_seen].
  - constructor.
  - destruct (negb (prefix "workspaces/" x)); [apply IH|].
    destruct (existsb (String.eqb x) seen); [apply IH|].
    constructor; [|apply IH].
    rewrite first_seen_in. cbn [In]. tauto.
Qed.

Lemma collect_images_first_seen packages names :
  Forall2 (fun pkg n => package_name pkg = Some n) packages names ->
  forall seen,
    collect_images seen packages
    = Some (map (fun n => image_entry (last_segment n)) (first_seen seen names)).
Proof.
  induction 1 as [|pkg n packages names Hname _ IH]; intros seen;
    cbn [collect_images first_seen map]; [reflexivity|].
  unfold package_name in Hname.
  destruct pkg as [| | | | |fields]; try discriminate.
  destruct (dict_get "name" fields) as [[| | |name| |]|]; try discriminate;
    injection Hname as <-.
  - destruct (negb (prefix "workspaces/" name)); [apply IH|].
    destruct (existsb (String.eqb name) seen); [apply IH|].
    now rewrite IH.
  - cbn [prefix negb]. apply IH.
Qed.

Lemma collect_images_malformed packages pkg :
  In pkg packages -> package_name pkg = None ->
  forall seen, collect_images seen packages = None.
Proof.
  induction packages as [|x packages IH]; intros Hin Hbad seen; [contradiction|].
  cbn [collect_images]. destruct Hin as [-> | Hin].
  - unfold package_name in Hbad.
    destruct pkg as [| | | | |fields]; try reflexivity.
    destruct (dict_get "name" fields) as [[| | |name| |]|]; try reflexivity;
      discriminate.
  - destruct x as [| | | | |fields]; try reflexivity.
    destruct (match dict_get "name" fields with Some v => v | None => JStr "" end);
      try reflexivity.
    destruct (negb (prefix "workspaces/" s)); [now apply IH|].
    destruct (existsb (String.eqb s) seen); [now apply IH|].
    now rewrite (IH Hin Hbad).
Qed.

Lemma after_last_slash_final s :
  forall t, after_last_slash s = Some t -> after_last_slash t = None.
Proof.
  induction s as [|c s IH]; intros t; cbn [after_last_slash]; [discriminate|].
  destruct (after_last_slash s) as [t'|] eqn:E.
  - intros [= <-]. now apply IH.
  - destruct (Ascii.eqb c "/"%char); [|discriminate]. now intros [= <-].
Qed.

Lemma last_segment_no_slash s : after_last_slash (last_segment s) = None.
Proof.
  unfold last_segment. destruct (after_last_slash s) as [t|] eqn:E.
  - now apply after_last_slash_final with s.
  - exact E.
Qed.

Lemma collect_images_shape packages :
  forall seen found,
    collect_images seen packages = Some found ->
    Forall (fun e => exists n, e = image_entry (last_segment n)) found.
Proof.
  induction packages as [|x packages IH]; intros seen found;
    cbn [collect_images].
  - intros [= <-]. constructor.
  - destruct x as [| | | | |fields]; try discriminate.
    destruct (match dict_get "name" fields with Some v => v | None => JStr "" end);
      try discriminate.
    destruct (negb (prefix "workspaces/" s)); [apply IH|].
    destruct (existsb (String.eqb s) seen); [apply IH|].
    destruct (collect_images (s :: seen) packages) as [rest|] eqn:E;
      [|discriminate].
    intros [= <-]. constructor; [now exists s | now apply IH with (s :: seen)].
Qed.

(** X15. From a package list in which every package has a string name (or
    none), [get_images] returns the entries in ascending order of their
    display names, one entry for each distinct package name that starts
    with ['workspaces/']: versions of one package are merged, and the entry
    shows the last path segment of the name. *)
Theorem get_images_catalog :
  forall (packages : list json) (names : list string),
    Forall2 (fun pkg n => package_name pkg = Some n) packages names ->
    Sorted by_name (get_images (Some (JArr packages)))
    /\ exists kept,
         Permutation (get_images (Some (JArr packages)))
                     (map (fun n => image_entry (last_segment n)) kept)
         /\ NoDup kept
         /\ forall n, In n kept
                      <-> In n names /\ prefix "workspaces/" n = true.
Proof.
  intros packages names Hnames. unfold get_images.
  rewrite (collect_images_first_seen packages names Hnames []).
  split; [apply sorted_by_sorted|].
  exists (first_seen [] names).
  split; [apply sorted_by_perm|].
  split; [apply first_seen_nodup|].
  intros n. rewrite first_seen_in. cbn [In]. tauto.
Qed.

(** X16. When the registry cannot be reached, or when one package of its
    answer is not a dictionary or carries a name that is not a string,
    [get_images] discards whatever it has collected and returns the two
    built-in images. *)
Theorem get_images_falls_back :
  forall fetched : option json,
    (fetched = None
     \/ exists packages pkg,
          fetched = Some (JArr packages)
          /\ In pkg packages /\ package_name pkg = None) ->
    get_images fetched = [image_entry "brave"; image_entry "edge"].
Proof.
  intros fetched [-> | (packages & pkg & -> & Hin & Hbad)]; [reflexivity|].
  unfold get_images. now rewrite (collect_images_malformed packages pkg Hin Hbad).
Qed.

(** X17. Whatever the registry answers, every entry of the catalog has the
    tag ['latest'], an image equal to its name, and a name without ['/'],
    so that the image name put into a container name by [api_start] needs
    no replacement. *)
Theorem get_images_entries :
  forall fetched : option json,
    Forall (fun e => entry_tag e = "latest"
                     /\ entry_image e = entry_name e
                     /\ after_last_slash (entry_name e) = None
                     /\ replace_char "/"%char "-" (entry_name e) = entry_name e)
           (get_images fetched).
Proof.
  intros fetched.
  assert (Hshape : Forall (fun e => exists n, e = image_entry (last_segment n))
                          (get_images fetched)).
  { unfold get_images.
    assert (Hbuiltin : Forall (fun e => exists n, e = image_entry (last_segment n))
                              builtin_images).
    { repeat constructor; [now exists "brave" | now exists "edge"]. }
    assert (Hsorted : forall found,
               Forall (fun e => exists n, e = image_entry (last_segment n)) found ->
               Forall (fun e => exists n, e = image_entry (last_segment n))
                      (sorted_by entry_name found)).
    { intros found Hf. apply Forall_forall. intros e He.
      apply (Permutation_in _ (sorted_by_perm entry_name found)) in He.
      revert e He. now apply Forall_forall. }
    destruct fetched as [[| | |[|c s]|packages|[|f fields]]|]; try exact Hbuiltin;
      try (apply Hsorted; constructor).
    destruct (collect_images [] packages) as [found|] eqn:E; [|exact Hbuiltin].
    apply Hsorted. now apply collect_images_shape with packages []. }
  eapply Forall_impl; [|exact Hshape].
  intros e [n ->]. cbn [image_entry entry_tag entry_image entry_name].
  repeat split; [apply last_segment_no_slash|].
  generalize (last_segment_no_slash n). generalize (last_segment n).
  induction s as [|c s IH]; cbn [after_last_slash replace_char]; [reflexivity|].
  destruct (after_last_slash s); [discriminate|].
  destruct (Ascii.eqb c "/"%char); [discriminate|].
  intros _. now rewrite IH.
Qed.

(** *** The dashboard and the session identity *)

Lemma get_user_id_with_session req :
  get_user_id (with_session (Some (get_user_id req)) req) = get_user_id req.
Proof.
  unfold get_user_id, with_session. cbn [authentik_username session_user_id].
  destruct (authentik_username req) as [[|c h]|]; cbn; try reflexivity;
    destruct (session_user_id req) as [[|c' s']|]; reflexivity.
Qed.

(** X18. [toggle_autokill] knows its caller only through the identity that
    [dashboard] has put into the Flask session.  Once the dashboard has been
    rendered for an identified caller, a toggle that carries this session
    stores the caller's session again with every field as before and the
    lease 0 (infinite) or 7200 (finite); a toggle whose session is empty, as
    it is after [logout], changes no row, whatever identity header it
    carries. *)
Theorem dashboard_enables_toggle :
  forall (lib : DateLib) (R : Type) (client : Docker R)
         (environ : list (string * string)) (req : request) (now : datetime)
         (fetched : option json) (name : string) (w : world R) (r : session),
    unidentified (get_user_id req) = false ->
    (forall r, In r (table w) -> user_id r = get_user_id req ->
       exists entry,
         list_entry (getenv environ "DOMAIN" "workspaces.domain.local") now r
         = Ok entry) ->
    Sql.select_one (get_user_id req) name (table w) = Some r ->
    exists list_data w1,
      dashboard environ req now fetched w
      = (Ok (Rendered (get_user_id req) list_data (get_images fetched)), w1)
      /\ table w1 = table w
      /\ (forall post,
            session_user_id post = Some (get_user_id req) ->
            Sql.select_one (get_user_id req) name
              (table (snd (toggle_autokill name post w1)))
            = Some {| user_id := user_id r;
                      container_name := container_name r;
                      image := image r;
                      password := password r;
                      created := created r;
                      ttl := if json_truthy (is_infinite post)
                             then 0 else 7200 |})
      /\ (forall post,
            session_user_id post = snd (logout req) ->
            table (snd (toggle_autokill name post w1)) = table w1).
Proof.
  intros lib R client environ req now fetched name w r Hid Hread Hrow.
  unfold dashboard, api_list, bind, lift, query, ret.
  rewrite get_user_id_with_session, Hid. cbn [table runtime log].
  destruct (list_entries_describe
              (getenv environ "DOMAIN" "workspaces.domain.local") now
              (Sql.select_by_user (get_user_id req) (table w)))
    as (entries & Hrun & _).
  { intros r0 Hin. apply filter_In in Hin. destruct Hin as [Hin Hu].
    apply Hread; [exact Hin | now apply String.eqb_eq]. }
  rewrite Hrun. do 2 eexists. split; [reflexivity|]. cbn [table].
  split; [reflexivity|]. split.
  - intros post Hsession. unfold toggle_autokill, bind, execute, ret.
    rewrite Hsession.
    destruct (json_truthy (is_infinite post)); cbn [snd table];
      now rewrite select_one_update_same, Hrow.
  - intros post Hsession. unfold toggle_autokill, bind, execute, ret.
    rewrite Hsession. cbn [logout snd].
    now destruct (json_truthy (is_infinite post)).
Qed.

(** *** The further properties at concrete tables *)

Import Cases.

(** Twelve hours after the creation the uptime reads ["12h 0m"]. *)
Lemma format_uptime_decomposition_witness :
  format_uptime second_day second_noon = Ok "12h 0m"
  /\ 0 <= minutes_of (seconds 43200) < 60
  /\ seconds (3600 * 12 + 60 * 0) <= seconds 43200
     < seconds (3600 * 12 + 60 * 0 + 60).
Proof.
  apply (format_uptime_decomposition utc_dates second_day second_noon
           {| wall_us := seconds 86400; utcoffset := None |}
           eq_refl eq_refl eq_refl).
  - unfold plain_time, seconds, us_per_s. cbn [wall_us]. lia.
  - unfold plain_time, second_noon, seconds, us_per_s. cbn [wall_us]. lia.
Defined.

(** Bob asks to stop Amy's container. *)
Lemma api_stop_not_found_witness :
  api_stop "workspaces-amy-brave-89ef7654" (get_as (Some "bob") [])
    (world_of two_owners [])
  = (Ok (JObj [("error", JStr "Container not found or unauthorized")], 404),
     {| table := two_owners;
        runtime := {| running := []; unavailable := []; stuck := [] |};
        log := [SqlSelect] |}).
Proof.
  apply (api_stop_not_found runtime_state toy_docker
           "workspaces-amy-brave-89ef7654" (get_as (Some "bob") [])
           (world_of two_owners []) eq_refl).
  intros r Hin Hname. cbn in Hin. destruct Hin as [<- | [<- | []]].
  - discriminate Hname.
  - discriminate.
Defined.

(** Bob stops his own container, twice. *)
Lemma api_stop_deletes_own_row_witness :
  exists w',
    api_stop "workspaces-bob-brave-0123abcd" (get_as (Some "bob") []) bob_running
    = (Ok (JObj [("success", JBool true)], 200), w')
    /\ log w'
       = [SqlSelect; ContainersGet "workspaces-bob-brave-0123abcd";
          ContainerStop "workspaces-bob-brave-0123abcd"; SqlDelete]
    /\ runtime w' = {| running := []; unavailable := []; stuck := [] |}
    /\ (forall r', In r' (table w')
                   <-> In r' two_owners
                       /\ ~ (user_id r' = "bob"
                             /\ container_name r' = "workspaces-bob-brave-0123abcd"))
    /\ fst (api_stop "workspaces-bob-brave-0123abcd" (get_as (Some "bob") []) w')
       = Ok (JObj [("error", JStr "Container not found or unauthorized")], 404).
Proof.
  exact (api_stop_deletes_own_row runtime_state toy_docker
           "workspaces-bob-brave-0123abcd" (get_as (Some "bob") []) bob_running
           (row "bob" "workspaces-bob-brave-0123abcd" at_epoch 3600)
           eq_refl eq_refl).
Defined.

(** [?ttl=2h] *)
Lemma invalid_ttl_raises_before_effects_witness :
  api_start [] "brave" (get_as (Some "bob") [("ttl", "2h")]) noon dice bob_running
  = (Raise ValueError, bob_running)
  /\ extend_session "workspaces-bob-brave-0123abcd"
       (get_as (Some "bob") [("ttl", "2h")]) 1800 bob_running
     = (Raise ValueError, bob_running).
Proof.
  exact (invalid_ttl_raises_before_effects utc_dates runtime_state toy_docker []
           "brave" "workspaces-bob-brave-0123abcd" "2h"
           (get_as (Some "bob") [("ttl", "2h")]) noon dice 1800 bob_running
           eq_refl eq_refl eq_refl eq_refl).
Defined.

Lemma primary_key_preserved_witness :
  Sql.primary_key
    (table (snd (run [] (Start "brave" (get_as (Some "bob") []) noon dice)
                   bob_running))).
Proof.
  apply (primary_key_preserved utc_dates runtime_state toy_docker []
           (Start "brave" (get_as (Some "bob") []) noon dice) bob_running).
  unfold Sql.primary_key. cbn. repeat constructor; cbn; intuition discriminate.
Defined.

(** The row found after Bob's toggle is his row with a new [ttl]. *)
Lemma stored_fields_immutable_witness :
  (exists r, In r two_owners
             /\ same_identity r (row "bob" "workspaces-bob-brave-0123abcd"
                                     at_epoch 0))
  \/ (exists image_name req now rnd,
        Toggle "workspaces-bob-brave-0123abcd" (post_as (Some "bob") true)
        = Start image_name req now rnd
        /\ requested_ttl req = Ok 0
        /\ row "bob" "workspaces-bob-brave-0123abcd" at_epoch 0
           = provisioned [] image_name req now rnd 0).
Proof.
  apply (stored_fields_immutable utc_dates runtime_state toy_docker []
           (Toggle "workspaces-bob-brave-0123abcd" (post_as (Some "bob") true))
           bob_running (row "bob" "workspaces-bob-brave-0123abcd" at_epoch 0)).
  left. reflexivity.
Defined.

(** Alice starts [brave] with a two-hour lease. *)
Lemma api_start_stores_session_witness :
  exists w',
    api_start [] "brave" (get_as (Some "alice") [("ttl", "7200")]) noon dice
      (world_of two_owners [])
    = (Ok (JObj [("url", JStr "https://workspaces-alice-brave-0123abcd.workspaces.domain.local");
                 ("username", JStr "workspaces-user");
                 ("password", JStr "aB3$aB3$aB3$aB3$aB3$aB3$");
                 ("ttl", JInt 7200);
                 ("name", JStr "workspaces-alice-brave-0123abcd")], 200), w')
    /\ log w'
       = [ImagesPull "gitea.domain.local:3002/brave:latest";
          ContainersRun "gitea.domain.local:3002/brave:latest"
                        "workspaces-alice-brave-0123abcd";
          ExecRun "workspaces-alice-brave-0123abcd"; SqlInsert]
    /\ Sql.select_one "alice" "workspaces-alice-brave-0123abcd" (table w')
       = Some {| user_id := "alice";
                 container_name := "workspaces-alice-brave-0123abcd";
                 image := "gitea.domain.local:3002/brave:latest";
                 password := "aB3$aB3$aB3$aB3$aB3$aB3$";
                 created := PStr "1970-01-01T12:00:00"; ttl := 7200 |}
    /\ (forall u n, (u, n) <> ("alice", "workspaces-alice-brave-0123abcd") ->
          Sql.select_one u n (table w') = Sql.select_one u n two_owners).
Proof.
  apply (api_start_stores_session utc_dates runtime_state toy_docker []
           "brave" (get_as (Some "alice") [("ttl", "7200")]) noon dice
           (world_of two_owners []) 7200
           {| running := []; unavailable := []; stuck := [] |}
           {| running := ["workspaces-alice-brave-0123abcd"];
              unavailable := []; stuck := [] |}
           eq_refl eq_refl).
  - unfold fits_integer. lia.
  - reflexivity.
  - reflexivity.
Defined.

(** A one-hour lease extended by 600 seconds at half time: the stored
    length becomes 2400, and the expiry moves from 3600 to 2400. *)
Lemma extend_session_moves_expiry_witness :
  exists w',
    fst (extend_session "workspaces-bob-brave-0123abcd"
           (get_as (Some "bob") [("ttl", "600")]) 1800 bob_running)
    = Ok (JObj [("success", JBool true); ("old_remaining", JInt 1800);
                ("added", JInt 600); ("new_ttl", JInt 2400)], 200)
    /\ w' = snd (extend_session "workspaces-bob-brave-0123abcd"
                   (get_as (Some "bob") [("ttl", "600")]) 1800 bob_running)
    /\ Sql.select_one "bob" "workspaces-bob-brave-0123abcd" (table w')
       = Some {| user_id := "bob";
                 container_name := "workspaces-bob-brave-0123abcd";
                 image := "gitea.domain.local:3002/brave:latest";
                 password := "s3cret";
                 created := at_epoch;
                 ttl := 2400 |}
    /\ 0 + 2400 = 0 + 3600 + (600 - (1800 - 0)).
Proof.
  apply (extend_session_moves_expiry utc_dates runtime_state toy_docker
           "workspaces-bob-brave-0123abcd"
           (get_as (Some "bob") [("ttl", "600")]) 1800 bob_running
           (row "bob" "workspaces-bob-brave-0123abcd" at_epoch 3600) 600 0
           eq_refl eq_refl eq_refl eq_refl eq_refl).
  - cbn. lia.
  - unfold fits_integer. cbn. lia.
Defined.

(** Amy's infinite session, created at 0, is toggled to finite and swept at
    7200: her running container is looked up and told to stop, and her row
    is deleted, after Bob's expired lease, whose container is not found. *)
Lemma toggle_finite_then_sweep_witness :
  exists w1 w2,
    toggle_autokill "workspaces-amy-brave-89ef7654" (post_as (Some "amy") false)
      (world_of two_owners ["workspaces-amy-brave-89ef7654"])
    = (Ok (JObj [("success", JBool true); ("status", JStr "finite")], 200), w1)
    /\ table w1 = [row "bob" "workspaces-bob-brave-0123abcd" at_epoch 3600;
                   row "amy" "workspaces-amy-brave-89ef7654" at_epoch 7200]
    /\ cleanup_old_containers 7200 w1 = (Ok tt, w2)
    /\ log w2
       = [SqlUpdate; SqlSelect;
          ContainersGet "workspaces-bob-brave-0123abcd";
          SqlDelete;
          ContainersGet "workspaces-amy-brave-89ef7654";
          ContainerStop "workspaces-amy-brave-89ef7654";
          SqlDelete]
    /\ Sql.select_one "amy" "workspaces-amy-brave-89ef7654" (table w2) = None.
Proof.
  destruct (toggle_finite_then_sweep utc_dates runtime_state toy_docker
              "workspaces-amy-brave-89ef7654" (post_as (Some "amy") false) 7200
              (world_of two_owners ["workspaces-amy-brave-89ef7654"])
              (row "amy" "workspaces-amy-brave-89ef7654" at_epoch 0) 0
              eq_refl eq_refl eq_refl)
    as (w1 & w2 & names & Htoggle & Hrun & -> & Hlog & _ & _ & Hgone).
  - intros r Hin. exists 0. cbn in Hin. destruct Hin as [<- | [<- | []]]; reflexivity.
  - reflexivity.
  - cbn. lia.
  - exists w1, w2. split; [exact Htoggle|].
    assert (Hw1 : w1 = snd (toggle_autokill "workspaces-amy-brave-89ef7654"
                              (post_as (Some "amy") false)
                              (world_of two_owners
                                 ["workspaces-amy-brave-89ef7654"])))
      by now rewrite Htoggle.
    subst w1. split; [reflexivity|]. split; [exact Hrun|].
    split; [exact Hlog | exact Hgone].
Defined.

Lemma cleanup_twice_witness :
  exists w1,
    cleanup_old_containers 100 stubborn = (Ok tt, w1)
    /\ cleanup_old_containers 100 w1
       = (Ok tt, {| table := table w1; runtime := runtime w1;
                    log := (log w1 ++ [SqlSelect])%list |}).
Proof.
  apply (cleanup_twice utc_dates runtime_state toy_docker 100 stubborn).
  intros r Hin _. exists 0. cbn in Hin.
  destruct Hin as [<- | [<- | [<- | [<- | []]]]]; reflexivity.
Defined.

(** Bob's ten-second lease, listed at noon of the day it was created. *)
Lemma list_entry_expired_shows_zero_witness :
  exists entry,
    list_entry "workspaces.domain.local" second_noon
      (row "bob" "workspaces-bob-brave-0123abcd" second_day 10) = Ok entry
    /\ json_field "name" entry = Some (JStr "workspaces-bob-brave-0123abcd")
    /\ json_field "infinite" entry = Some (JBool false)
    /\ json_field "time_left" entry = Some (JStr "0h 0m").
Proof.
  apply (list_entry_expired_shows_zero utc_dates "workspaces.domain.local"
           second_noon {| wall_us := seconds 86400; utcoffset := None |}
           (row "bob" "workspaces-bob-brave-0123abcd" second_day 10)).
  - cbn. discriminate.
  - reflexivity.
  - reflexivity.
  - reflexivity.
  - unfold plain_time, seconds, us_per_s. cbn [wall_us]. lia.
  - unfold plain_time, second_noon, seconds, us_per_s. cbn [wall_us]. lia.
  - unfold in_calendar, DateTime.add, seconds, us_per_s. cbn. lia.
  - unfold second_noon, seconds, us_per_s. cbn. lia.
Defined.

Lemma api_list_fails_on_aware_created_witness :
  exists e,
    api_list [] (get_as (Some "bob") []) noon (world_of with_offset [])
    = (Raise e, {| table := with_offset;
                   runtime := {| running := []; unavailable := []; stuck := [] |};
                   log := [SqlSelect] |}).
Proof.
  apply (api_list_fails_on_aware_created utc_dates runtime_state toy_docker []
           (get_as (Some "bob") []) noon (world_of with_offset [])
           (row "bob" "workspaces-bob-edge-4567cdef"
                (PStr "1970-01-01T02:00:00+02:00") 3600)
           "1970-01-01T02:00:00+02:00"
           {| wall_us := seconds 7200; utcoffset := Some 7200 |} 7200).
  - reflexivity.
  - right. left. reflexivity.
  - reflexivity.
  - reflexivity.
  - reflexivity.
  - reflexivity.
  - reflexivity.
Defined.

(** Five packages give two entries, [brave] before [edge]. *)
Lemma get_images_catalog_witness :
  get_images (Some (JArr registry_answer))
  = [image_entry "brave"; image_entry "edge"]
  /\ Sorted by_name (get_images (Some (JArr registry_answer)))
  /\ exists kept,
       Permutation (get_images (Some (JArr registry_answer)))
                   (map (fun n => image_entry (last_segment n)) kept)
       /\ NoDup kept
       /\ forall n, In n kept
                    <-> In n registry_names /\ prefix "workspaces/" n = true.
Proof.
  split; [reflexivity|].
  apply (get_images_catalog registry_answer registry_names).
  repeat constructor.
Defined.

Lemma get_images_falls_back_witness :
  get_images None = [image_entry "brave"; image_entry "edge"]
  /\ get_images (Some (JArr broken_answer))
     = [image_entry "brave"; image_entry "edge"].
Proof.
  split.
  - apply (get_images_falls_back None). now left.
  - apply (get_images_falls_back (Some (JArr broken_answer))). right.
    exists broken_answer, (JObj [("name", JNull)]).
    split; [reflexivity|]. split; [right; left; reflexivity | reflexivity].
Defined.

(** Bob opens the dashboard, then toggles to infinite and to finite with
    its session, and to infinite with the identity header alone. *)
Lemma dashboard_enables_toggle_witness :
  exists list_data w1,
    dashboard [] (get_as (Some "bob") []) noon None bob_running
    = (Ok (Rendered "bob" list_data [image_entry "brave"; image_entry "edge"]), w1)
    /\ table w1 = two_owners
    /\ Sql.select_one "bob" "workspaces-bob-brave-0123abcd"
         (table (snd (toggle_autokill "workspaces-bob-brave-0123abcd"
                        (post_as (Some "bob") true) w1)))
       = Some (row "bob" "workspaces-bob-brave-0123abcd" at_epoch 0)
    /\ Sql.select_one "bob" "workspaces-bob-brave-0123abcd"
         (table (snd (toggle_autokill "workspaces-bob-brave-0123abcd"
                        (post_as (Some "bob") false) w1)))
       = Some (row "bob" "workspaces-bob-brave-0123abcd" at_epoch 7200)
    /\ table (snd (toggle_autokill "workspaces-bob-brave-0123abcd"
                     toggle_by_header w1))
       = two_owners.
Proof.
  destruct (dashboard_enables_toggle utc_dates runtime_state toy_docker []
              (get_as (Some "bob") []) noon None "workspaces-bob-brave-0123abcd"
              bob_running
              (row "bob" "workspaces-bob-brave-0123abcd" at_epoch 3600)
              eq_refl)
    as (list_data & w1 & Hpage & Htable & Hset & Hkeep).
  - intros r Hin Hown. cbn in Hin. destruct Hin as [<- | [<- | []]].
    + eexists. vm_compute. reflexivity.
    + discriminate Hown.
  - reflexivity.
  - exists list_data, w1.
    split; [exact Hpage|]. split; [exact Htable|].
    split; [exact (Hset (post_as (Some "bob") true) eq_refl)|].
    split; [exact (Hset (post_as (Some "bob") false) eq_refl)|].
    exact (eq_trans (Hkeep toggle_by_header eq_refl) Htable).
Defined.

(** X19. A sweep that can read the finite rows deletes exactly the rows
    whose container name is the name of an expired session: every other row,
    infinite or not yet expired, is kept as it is. *)
Theorem cleanup_deletes_exactly_expired_names :
  forall (lib : DateLib) (R : Type) (client : Docker R)
         (now_ts : Z) (w : world R),
    finite_rows_readable (table w) ->
    forall r,
      In r (table (snd (cleanup_old_containers now_ts w)))
      <-> In r (table w)
          /\ ~ exists r', In r' (table w) /\ is_expired now_ts r' = true
                          /\ container_name r' = container_name r.
Proof.
  intros lib R client now_ts w Hread r.
  destruct (cleanup_outcome now_ts w Hread) as (w' & evs & Hrun & _ & _ & Htab).
  rewrite Hrun. cbn [snd]. rewrite Htab.
  split; intros [Hin Hnot]; (split; [exact Hin|]).
  - intros (r' & Hin' & Hexp & Hname). apply Hnot. rewrite <- Hname.
    apply in_map, filter_In. now split.
  - intros Hname. apply Hnot. apply in_map_iff in Hname.
    destruct Hname as (r' & Hname & Hfilter). apply filter_In in Hfilter.
    exists r'. tauto.
Qed.

(** X20. A caller whom [get_user_id] resolves to ['anonymous'] is turned
    away by [api_start], [api_list] and [api_stop] with status 401 and by
    [dashboard] with a redirect to the login page, before any statement is
    sent to the table and before any call on the Docker client. *)
Theorem guarded_routes_reject_anonymous :
  forall (lib : DateLib) (R : Type) (client : Docker R)
         (environ : list (string * string)) (req : request) (w : world R),
    get_user_id req = "anonymous" ->
    (forall image_name now rnd,
       api_start environ image_name req now rnd w
       = (Ok (JObj [("error", JStr "Unauthorized")], 401), w))
    /\ (forall now,
          api_list environ req now w
          = (Ok (JObj [("error", JStr "Unauthorized")], 401), w))
    /\ (forall name,
          api_stop name req w
          = (Ok (JObj [("error", JStr "Unauthorized")], 401), w))
    /\ (forall now fetched,
          dashboard environ req now fetched w
          = (Ok (Redirect
                   "https://authentik.domain.local/if/auth/?next=https://workspaces.domain.local/"),
             w)).
Proof.
  intros lib R client environ req w Hanon.
  unfold api_start, api_list, api_stop, dashboard. rewrite Hanon.
  now repeat split.
Qed.

(** Amy's infinite session survives the sweep of [stubborn]; Bob's expired
    lease does not. *)
Lemma cleanup_deletes_exactly_expired_names_witness :
  In (row "amy" "workspaces-amy-brave-89ef7654" at_epoch 0)
     (table (snd (cleanup_old_containers 100 stubborn)))
  /\ ~ In (row "bob" "workspaces-bob-brave-0123abcd" at_epoch 10)
          (table (snd (cleanup_old_containers 100 stubborn))).
Proof.
  assert (Hread : finite_rows_readable (table stubborn)).
  { intros r Hin _. exists 0. cbn in Hin.
    destruct Hin as [<- | [<- | [<- | [<- | []]]]]; reflexivity. }
  split.
  - apply (cleanup_deletes_exactly_expired_names utc_dates runtime_state
             toy_docker 100 stubborn Hread).
    split; [right; left; reflexivity|].
    intros (r' & Hin & Hexp & Hname). cbn in Hin.
    destruct Hin as [<- | [<- | [<- | [<- | []]]]]; discriminate.
  - intros Hin.
    apply (cleanup_deletes_exactly_expired_names utc_dates runtime_state
             toy_docker 100 stubborn Hread) in Hin.
    destruct Hin as [_ Hnot]. apply Hnot.
    exists (row "bob" "workspaces-bob-brave-0123abcd" at_epoch 10).
    split; [left; reflexivity|]. split; reflexivity.
Defined.

(** A request without header and without session. *)
Lemma guarded_routes_reject_anonymous_witness :
  api_start [] "brave" (get_as None []) noon dice bob_running
  = (Ok (JObj [("error", JStr "Unauthorized")], 401), bob_running)
  /\ api_stop "workspaces-bob-brave-0123abcd" (get_as None []) bob_running
     = (Ok (JObj [("error", JStr "Unauthorized")], 401), bob_running).
Proof.
  destruct (guarded_routes_reject_anonymous utc_dates runtime_state toy_docker []
              (get_as None []) bob_running eq_refl)
    as (Hstart & _ & Hstop & _).
  split; [apply Hstart | apply Hstop].
Defined.
